(** * LVGL v9 file-system port over ESP32 LittleFS: a shallow embedding

    This development embeds [lv_port_fs/lv_port_fs.c] and states the
    properties of its observable contract.

    The adapter is a thin layer over three collaborators that are not part
    of the repository: the C library's stdio/dirent calls, the ESP-IDF
    LittleFS mount and logging calls, and LVGL's driver registry.  The C
    library and the mount calls are taken as an interface ([libc]) over an
    abstract OS state; every callback of the adapter is written once, against
    that interface, following the C text line by line.  A small in-memory
    implementation of the interface ([MemOS]) is used to run the callbacks on
    concrete inputs.

    Conventions of the embedding:
    - the target is the ESP32: [size_t], [uint32_t] and [long] are 32 bits
      wide; integers are [Z] with the wrap-around written out;
    - a pointer to a stream or directory is a [Z], [NULL] is [0];
    - a [const char *] argument is the [string] of the characters stored
      behind the pointer, followed in memory by the terminating NUL;
    - a caller buffer is the [list ascii] of its cells, its length being the
      size of the object; an access outside of it has no defined behaviour;
    - an [uint32_t *] out-parameter is a [cell]: [None] for a null pointer,
      [Some v] for a valid pointer to a word holding [v];
    - a computation is a function from the state to an [outcome]: a result
      and a new state, or [Undef] where C assigns no behaviour. *)

From Stdlib Require Import ZArith String Ascii List Lia Bool.
From stdpp Require Import base gmap strings list.

Open Scope Z_scope.

(** ** Outcomes and the state monad of the embedding *)

Inductive outcome (A : Type) : Type :=
| Ret (a : A)
| Undef.
Arguments Ret {A} a.
Arguments Undef {A}.

Definition M (S A : Type) : Type := S -> outcome (A * S).

Definition ret {S A : Type} (a : A) : M S A := fun s => Ret (a, s).

Definition bind {S A B : Type} (c : M S A) (k : A -> M S B) : M S B :=
  fun s => match c s with
           | Ret (a, s') => k a s'
           | Undef => Undef
           end.

(** The computation of a step C leaves undefined. *)
Definition undef {S A : Type} : M S A := fun _ => Undef.

Declare Scope adapter_scope.
Delimit Scope adapter_scope with adapter.
Notation "'let*' x ':=' c 'in' k" := (bind c (fun x => k))
  (at level 10, x pattern, c at level 100, k at level 200) : adapter_scope.
Open Scope adapter_scope.

(** ** C data *)

Definition ptr : Type := Z.
Definition NULL : ptr := 0.

Definition NUL : ascii := Ascii.zero.

(** [(uint32_t) z] *)
Definition uint32 (z : Z) : Z := z mod 2 ^ 32.

(** Conversion of an [uint32_t] to the 32-bit [long] of the target. *)
Definition to_long (z : Z) : Z :=
  let u := z mod 2 ^ 32 in
  if u <? 2 ^ 31 then u else u - 2 ^ 32.

Definition cell : Type := option Z.

(** [*p = v] through an [uint32_t *]. *)
Definition store_cell (p : cell) (v : Z) : option cell :=
  match p with
  | Some _ => Some (Some v)
  | None => None
  end.

(** [s[i]] for a [const char *s]: the characters, then the terminating NUL;
    nothing is known of the memory after it. *)
Definition char_at (s : string) (i : nat) : option ascii :=
  match String.get i s with
  | Some c => Some c
  | None => if (i =? String.length s)%nat then Some NUL else None
  end.

(** The characters of [s] up to its first NUL: what [%s] and [strncpy] see. *)
Fixpoint c_str (s : string) : string :=
  match s with
  | EmptyString => EmptyString
  | String c s' => if Ascii.eqb c NUL then EmptyString else String c (c_str s')
  end.

(** [s + n] for a [const char *s] with [n] inside the string. *)
Definition advance (n : nat) (s : string) : string :=
  String.substring n (String.length s - n) s.

(** [snprintf(buf, size, prefix "%s", arg)]: the text left in [buf], the
    literal [prefix] holding no conversion.  At most [size - 1] characters
    are kept. *)
Definition snprintf_s (size : nat) (prefix arg : string) : string :=
  let full := (prefix ++ c_str arg)%string in
  String.substring 0 (size - 1) full.

(** [buf[i] = c] *)
Definition store_char (buf : list ascii) (i : Z) (c : ascii) : option (list ascii) :=
  if (0 <=? i) && (i <? Z.of_nat (length buf))
  then Some (<[Z.to_nat i := c]> buf)
  else None.

(** [strncpy(dst, src, n)]: exactly [n] cells of [dst] are written, the
    characters of [src] first and NUL padding after them. *)
Definition strncpy (dst : list ascii) (src : string) (n : Z) : option (list ascii) :=
  if (0 <=? n) && (n <=? Z.of_nat (length dst)) then
    let k := Z.to_nat n in
    let chars := take k (list_ascii_of_string (c_str src)) in
    Some (chars ++ replicate (k - length chars) NUL ++ drop k dst)
  else None.

(** The C string held in a buffer. *)
Definition buf_str (buf : list ascii) : string :=
  c_str (string_of_list_ascii buf).

(** Whether a NUL occurs in the buffer. *)
Definition terminated (buf : list ascii) : bool :=
  existsb (fun c => Ascii.eqb c NUL) buf.

(** ** LVGL declarations used by the port ([lv_fs.h]) *)

Inductive lv_fs_res_t : Type :=
| LV_FS_RES_OK
| LV_FS_RES_HW_ERR
| LV_FS_RES_FS_ERR
| LV_FS_RES_NOT_EX
| LV_FS_RES_FULL
| LV_FS_RES_LOCKED
| LV_FS_RES_DENIED
| LV_FS_RES_BUSY
| LV_FS_RES_TOUT
| LV_FS_RES_NOT_IMP
| LV_FS_RES_OUT_OF_MEM
| LV_FS_RES_INV_PARAM
| LV_FS_RES_UNKNOWN.

Definition LV_FS_MODE_WR : Z := 1.
Definition LV_FS_MODE_RD : Z := 2.

Definition LV_FS_SEEK_SET : Z := 0.
Definition LV_FS_SEEK_CUR : Z := 1.
Definition LV_FS_SEEK_END : Z := 2.

(** The functions of the port, as values of the callback slots. *)
Inductive callback : Type :=
| cb_fs_open | cb_fs_close | cb_fs_read | cb_fs_write | cb_fs_seek | cb_fs_tell
| cb_fs_dir_open | cb_fs_dir_read | cb_fs_dir_close.

Record lv_fs_drv_t : Type := {
  letter : ascii;
  cache_size : Z;
  ready_cb : option callback;
  open_cb : option callback;
  close_cb : option callback;
  read_cb : option callback;
  write_cb : option callback;
  seek_cb : option callback;
  tell_cb : option callback;
  dir_open_cb : option callback;
  dir_read_cb : option callback;
  dir_close_cb : option callback;
  user_data : ptr
}.

(** [lv_fs_drv_init]: the structure is cleared. *)
Definition lv_fs_drv_init : lv_fs_drv_t :=
  {| letter := NUL; cache_size := 0; ready_cb := None;
     open_cb := None; close_cb := None; read_cb := None; write_cb := None;
     seek_cb := None; tell_cb := None;
     dir_open_cb := None; dir_read_cb := None; dir_close_cb := None;
     user_data := NULL |}.

(** ** C library and ESP-IDF declarations *)

Definition SEEK_SET : Z := 0.
Definition SEEK_CUR : Z := 1.
Definition SEEK_END : Z := 2.

Definition ESP_OK : Z := 0.
Definition ESP_FAIL : Z := -1.

Record dirent : Type := { d_name : string }.

Record esp_vfs_littlefs_conf_t : Type := {
  base_path : string;
  partition_label : option string;
  format_if_mount_failed : bool;
  dont_mount : bool
}.

(** The calls the port makes into its platform, over an OS state [W].
    [feof], [ferror] and [errno] only read the state. *)
Record libc (W : Type) : Type := {
  esp_vfs_littlefs_register : esp_vfs_littlefs_conf_t -> M W Z;
  esp_littlefs_info : option string -> Z -> Z -> M W (Z * Z * Z);
  esp_err_to_name : Z -> string;
  fopen : string -> string -> M W ptr;
  fclose : ptr -> M W Z;
  fread : list ascii -> Z -> Z -> ptr -> M W (Z * list ascii);
  fwrite : list ascii -> Z -> Z -> ptr -> M W Z;
  fseek : ptr -> Z -> Z -> M W Z;
  ftell : ptr -> M W Z;
  feof : ptr -> W -> Z;
  ferror : ptr -> W -> Z;
  errno : W -> Z;
  opendir : string -> M W ptr;
  readdir : ptr -> M W (option dirent);
  closedir : ptr -> M W Z
}.
Arguments esp_vfs_littlefs_register {W} _ _ _.
Arguments esp_littlefs_info {W} _ _ _ _ _.
Arguments esp_err_to_name {W} _ _.
Arguments fopen {W} _ _ _ _.
Arguments fclose {W} _ _ _.
Arguments fread {W} _ _ _ _ _ _.
Arguments fwrite {W} _ _ _ _ _ _.
Arguments fseek {W} _ _ _ _ _.
Arguments ftell {W} _ _ _.
Arguments feof {W} _ _ _.
Arguments ferror {W} _ _ _.
Arguments errno {W} _ _.
Arguments opendir {W} _ _ _.
Arguments readdir {W} _ _ _.
Arguments closedir {W} _ _ _.

(** ** Log output *)

Inductive log_level : Type := LOG_ERROR | LOG_INFO.

(** The formatted messages of the port, by format string. *)
Inductive log_msg : Type :=
| Msg_mount_failed (err_name : string)
| Msg_partition_size (total used : Z)
| Msg_open (filepath mode_str : string)
| Msg_open_failed (filepath : string) (err : Z).

Record log_entry : Type := {
  lvl : log_level;
  tag : string;
  msg : log_msg
}.

Definition TAG : string := "lv_fs".

(** ** State of the embedding: the OS, the log and LVGL's driver list *)

Record state (W : Type) : Type := {
  os : W;
  log : list log_entry;
  fs_drivers : list lv_fs_drv_t
}.
Arguments os {W} _.
Arguments log {W} _.
Arguments fs_drivers {W} _.
Arguments Build_state {W} _ _ _.

Definition set_os {W : Type} (w : W) (st : state W) : state W :=
  {| os := w; log := log st; fs_drivers := fs_drivers st |}.

(** A call into the platform. *)
Definition sys {W A : Type} (c : M W A) : M (state W) A :=
  fun st => match c (os st) with
            | Ret (a, w) => Ret (a, set_os w st)
            | Undef => Undef
            end.

(** A read of the OS state. *)
Definition peek {W A : Type} (f : W -> A) : M (state W) A :=
  fun st => Ret (f (os st), st).

Definition ESP_LOGE {W : Type} (m : log_msg) : M (state W) unit :=
  fun st => Ret (tt, {| os := os st;
                        log := log st ++ [{| lvl := LOG_ERROR; tag := TAG; msg := m |}];
                        fs_drivers := fs_drivers st |}).

Definition ESP_LOGI {W : Type} (m : log_msg) : M (state W) unit :=
  fun st => Ret (tt, {| os := os st;
                        log := log st ++ [{| lvl := LOG_INFO; tag := TAG; msg := m |}];
                        fs_drivers := fs_drivers st |}).

(** [lv_fs_drv_register]: the driver is put at the head of LVGL's list. *)
Definition lv_fs_drv_register {W : Type} (drv : lv_fs_drv_t) : M (state W) unit :=
  fun st => Ret (tt, {| os := os st; log := log st;
                        fs_drivers := drv :: fs_drivers st |}).

(** Lifting of a failed memory access. *)
Definition access {S A : Type} (o : option A) : M S A :=
  match o with
  | Some a => ret a
  | None => undef
  end.

(** ** The port: [lv_port_fs.c] *)

Section Port.

Context {W : Type}.

(** The platform the port is linked against. *)
Variable C : libc W.

(** The mount point, a string literal defined in [lv_port_fs.h]; it holds
    no [%] and no NUL. *)
Variable LV_FS_PATH : string.

Definition fs_init : M (state W) unit :=
  let conf := {| base_path := LV_FS_PATH;
                 partition_label := None;
                 format_if_mount_failed := true;
                 dont_mount := false |} in
  let* r := sys (esp_vfs_littlefs_register C conf) in
  if negb (r =? ESP_OK) then
    ESP_LOGE (Msg_mount_failed (esp_err_to_name C r))
  else
    let* (r', total, used) := sys (esp_littlefs_info C (partition_label conf) 0 0) in
    if r' =? ESP_OK then ESP_LOGI (Msg_partition_size total used)
    else ret tt.

(** The driver structure once every assignment of [lv_port_fs_init] is
    done. *)
Definition fs_drv : lv_fs_drv_t :=
  {| letter := "S";
     cache_size := cache_size lv_fs_drv_init;
     ready_cb := ready_cb lv_fs_drv_init;
     open_cb := Some cb_fs_open;
     close_cb := Some cb_fs_close;
     read_cb := Some cb_fs_read;
     write_cb := Some cb_fs_write;
     seek_cb := Some cb_fs_seek;
     tell_cb := Some cb_fs_tell;
     dir_open_cb := Some cb_fs_dir_open;
     dir_read_cb := Some cb_fs_dir_read;
     dir_close_cb := Some cb_fs_dir_close;
     user_data := user_data lv_fs_drv_init |}.

Definition lv_port_fs_init : M (state W) unit :=
  let* _ := fs_init in
  lv_fs_drv_register fs_drv.

(** The text left in [filepath] by [fs_open]; [None] when reading
    [p[1]] leaves the string. *)
Definition fs_open_filepath (path : string) : option string :=
  match char_at path 1 with
  | None => None
  | Some c1 =>
    let p := if Ascii.eqb c1 ":" then advance 2 path else path in
    match char_at p 0 with
    | None => None
    | Some c0 =>
      if Ascii.eqb c0 "/"
      then Some (snprintf_s 256 LV_FS_PATH p)
      else Some (snprintf_s 256 (LV_FS_PATH ++ "/") p)
    end
  end.

(** The mode string handed to [fopen]. *)
Definition fs_open_mode_str (mode : Z) : string :=
  if negb (Z.land mode LV_FS_MODE_WR =? 0) then "wb" else "rb".

Definition fs_open (path : string) (mode : Z) : M (state W) ptr :=
  let* filepath := access (fs_open_filepath path) in
  let mode_str := fs_open_mode_str mode in
  let* _ := ESP_LOGI (Msg_open filepath mode_str) in
  let* f := sys (fopen C filepath mode_str) in
  let* _ := (if f =? NULL
             then let* e := peek (errno C) in
                  ESP_LOGE (Msg_open_failed filepath e)
             else ret tt) in
  ret f.

Definition fs_close (file_p : ptr) : M (state W) lv_fs_res_t :=
  if file_p =? NULL then ret LV_FS_RES_UNKNOWN
  else
    let* _ := sys (fclose C file_p) in
    ret LV_FS_RES_OK.

Definition fs_read (file_p : ptr) (buf : list ascii) (btr : Z) (br : cell)
  : M (state W) (lv_fs_res_t * list ascii * cell) :=
  if file_p =? NULL then ret (LV_FS_RES_UNKNOWN, buf, br)
  else
    let* (n, buf') := sys (fread C buf 1 btr file_p) in
    let* br' := access (store_cell br (uint32 n)) in
    if n =? 0 then
      let* e := peek (feof C file_p) in
      if negb (e =? 0) then ret (LV_FS_RES_OK, buf', br')
      else
        let* r := peek (ferror C file_p) in
        if negb (r =? 0) then ret (LV_FS_RES_UNKNOWN, buf', br')
        else ret (LV_FS_RES_OK, buf', br')
    else ret (LV_FS_RES_OK, buf', br').

Definition fs_write (file_p : ptr) (buf : list ascii) (btw : Z) (bw : cell)
  : M (state W) (lv_fs_res_t * cell) :=
  if file_p =? NULL then ret (LV_FS_RES_UNKNOWN, bw)
  else
    let* n := sys (fwrite C buf 1 btw file_p) in
    let* bw' := access (store_cell bw (uint32 n)) in
    if n <? btw then
      let* r := peek (ferror C file_p) in
      if negb (r =? 0) then ret (LV_FS_RES_UNKNOWN, bw')
      else ret (LV_FS_RES_OK, bw')
    else ret (LV_FS_RES_OK, bw').

(** The [origin] chosen by the [switch] of [fs_seek]. *)
Definition fs_seek_origin (whence : Z) : Z :=
  if whence =? LV_FS_SEEK_SET then SEEK_SET
  else if whence =? LV_FS_SEEK_CUR then SEEK_CUR
  else if whence =? LV_FS_SEEK_END then SEEK_END
  else SEEK_SET.

Definition fs_seek (file_p : ptr) (pos : Z) (whence : Z) : M (state W) lv_fs_res_t :=
  if file_p =? NULL then ret LV_FS_RES_UNKNOWN
  else
    let origin := fs_seek_origin whence in
    let* r := sys (fseek C file_p (to_long pos) origin) in
    ret (if r =? 0 then LV_FS_RES_OK else LV_FS_RES_UNKNOWN).

Definition fs_tell (file_p : ptr) (pos_p : cell) : M (state W) (lv_fs_res_t * cell) :=
  if (file_p =? NULL) || negb (bool_decide (is_Some pos_p))
  then ret (LV_FS_RES_UNKNOWN, pos_p)
  else
    let* pos := sys (ftell C file_p) in
    if pos <? 0 then ret (LV_FS_RES_UNKNOWN, pos_p)
    else
      let* pos_p' := access (store_cell pos_p (uint32 pos)) in
      ret (LV_FS_RES_OK, pos_p').

(** The text left in [dirpath] by [fs_dir_open]. *)
Definition fs_dir_open_dirpath (path : string) : option string :=
  match char_at path 0 with
  | None => None
  | Some c0 =>
    if Ascii.eqb c0 "/"
    then Some (snprintf_s 256 LV_FS_PATH path)
    else Some (snprintf_s 256 (LV_FS_PATH ++ "/") path)
  end.

Definition fs_dir_open (path : string) : M (state W) ptr :=
  let* dirpath := access (fs_dir_open_dirpath path) in
  sys (opendir C dirpath).

Definition fs_dir_read (rddir_p : ptr) (fn : list ascii) (fn_len : Z)
  : M (state W) (lv_fs_res_t * list ascii) :=
  if rddir_p =? NULL then ret (LV_FS_RES_UNKNOWN, fn)
  else
    let* entry := sys (readdir C rddir_p) in
    match entry with
    | None =>
      let* fn' := access (store_char fn 0 NUL) in
      ret (LV_FS_RES_OK, fn')
    | Some e =>
      let* fn1 := access (strncpy fn (d_name e) (uint32 (fn_len - 1))) in
      let* fn2 := access (store_char fn1 (uint32 (fn_len - 1)) NUL) in
      ret (LV_FS_RES_OK, fn2)
    end.

Definition fs_dir_close (rddir_p : ptr) : M (state W) lv_fs_res_t :=
  if rddir_p =? NULL then ret LV_FS_RES_UNKNOWN
  else
    let* _ := sys (closedir C rddir_p) in
    ret LV_FS_RES_OK.

End Port.

(** ** An in-memory platform

    A small executable implementation of [libc], used to run the port on
    concrete inputs.  Streams follow the C standard: ["rb"] opens an existing
    file for reading, ["wb"] creates the file or truncates it to length zero
    and opens it for writing; a call on a pointer that designates no open
    stream has no defined behaviour.  A read on a stream not opened for
    reading, or a write on a stream not opened for writing, transfers nothing
    and sets the stream's error indicator; both indicators are sticky.  A
    transfer of zero items returns zero and leaves the stream as it is.

    A file is created in a directory that exists: ["wb"] fails on the path of
    a directory, on a path that ends in a slash and on a path whose directory
    is missing.  What is written to a stream is held in the stream; it
    reaches the file when the stream is closed, and that commit fails, with
    [fclose] returning [EOF], when the flash has no free space left. *)

Module MemOS.

Record FILE : Type := {
  f_path : string;
  f_readable : bool;
  f_writable : bool;
  f_pos : nat;
  f_eof : bool;
  f_err : bool;
  f_data : list ascii                 (* written and not yet committed *)
}.

Record world : Type := {
  flash_ok : bool;                    (* the partition can be mounted *)
  mounted : bool;
  partition_size : nat;
  disk_free : nat;
  files : gmap string (list ascii);   (* regular files, by path *)
  dirs : gmap string (list string);   (* directories and their entries *)
  streams : gmap Z FILE;              (* open streams, by pointer *)
  dstreams : gmap Z (list string);    (* open directories: entries left *)
  next_ptr : Z;
  last_errno : Z
}.

Definition ENOENT : Z := 2.
Definition EBADF : Z := 9.
Definition EINVAL : Z := 22.
Definition EISDIR : Z := 21.
Definition ENOSPC : Z := 28.
Definition EOF : Z := -1.
Definition ESP_ERR_INVALID_STATE : Z := 259.

Definition set_mounted (b : bool) (w : world) : world :=
  {| flash_ok := flash_ok w; mounted := b;
     partition_size := partition_size w; disk_free := disk_free w;
     files := files w; dirs := dirs w; streams := streams w;
     dstreams := dstreams w; next_ptr := next_ptr w;
     last_errno := last_errno w |}.

Definition set_errno (e : Z) (w : world) : world :=
  {| flash_ok := flash_ok w; mounted := mounted w;
     partition_size := partition_size w; disk_free := disk_free w;
     files := files w; dirs := dirs w; streams := streams w;
     dstreams := dstreams w; next_ptr := next_ptr w;
     last_errno := e |}.

Definition set_files (fs : gmap string (list ascii)) (free : nat) (w : world) : world :=
  {| flash_ok := flash_ok w; mounted := mounted w;
     partition_size := partition_size w; disk_free := free;
     files := fs; dirs := dirs w; streams := streams w;
     dstreams := dstreams w; next_ptr := next_ptr w;
     last_errno := last_errno w |}.

Definition set_streams (ss : gmap Z FILE) (w : world) : world :=
  {| flash_ok := flash_ok w; mounted := mounted w;
     partition_size := partition_size w; disk_free := disk_free w;
     files := files w; dirs := dirs w; streams := ss;
     dstreams := dstreams w; next_ptr := next_ptr w;
     last_errno := last_errno w |}.

Definition set_dstreams (ds : gmap Z (list string)) (w : world) : world :=
  {| flash_ok := flash_ok w; mounted := mounted w;
     partition_size := partition_size w; disk_free := disk_free w;
     files := files w; dirs := dirs w; streams := streams w;
     dstreams := ds; next_ptr := next_ptr w;
     last_errno := last_errno w |}.

(** A pointer never handed out before, and never null. *)
Definition fresh (w : world) : Z := Z.max 1 (next_ptr w).

Definition bump (w : world) : world :=
  {| flash_ok := flash_ok w; mounted := mounted w;
     partition_size := partition_size w; disk_free := disk_free w;
     files := files w; dirs := dirs w; streams := streams w;
     dstreams := dstreams w; next_ptr := fresh w + 1;
     last_errno := last_errno w |}.

Definition set_flags (eof err : bool) (pos : nat) (F : FILE) : FILE :=
  {| f_path := f_path F; f_readable := f_readable F;
     f_writable := f_writable F; f_pos := pos; f_eof := eof; f_err := err;
     f_data := f_data F |}.

Definition set_data (data : list ascii) (F : FILE) : FILE :=
  {| f_path := f_path F; f_readable := f_readable F;
     f_writable := f_writable F; f_pos := f_pos F; f_eof := f_eof F;
     f_err := f_err F; f_data := data |}.

Definition set_dirs (ds : gmap string (list string)) (w : world) : world :=
  {| flash_ok := flash_ok w; mounted := mounted w;
     partition_size := partition_size w; disk_free := disk_free w;
     files := files w; dirs := ds; streams := streams w;
     dstreams := dstreams w; next_ptr := next_ptr w;
     last_errno := last_errno w |}.

(** A path cut after its last slash: the directory part, slash included,
    and the name. *)
Fixpoint split_last_slash (s : string) : option (string * string) :=
  match s with
  | EmptyString => None
  | String c s' =>
    match split_last_slash s' with
    | Some (d, n) => Some (String c d, n)
    | None => if Ascii.eqb c "/" then Some (String "/" EmptyString, s') else None
    end
  end.

(** Whether the path names a directory, with or without a final slash. *)
Definition is_dir (w : world) (path : string) : bool :=
  bool_decide (is_Some (dirs w !! path))
  || bool_decide (is_Some (dirs w !! (path ++ "/")%string)).

(** The directory a directory part stands for, as it is keyed in [dirs]. *)
Definition parent_key (w : world) (d : string) : option string :=
  if bool_decide (is_Some (dirs w !! d)) then Some d
  else
    let d' := String.substring 0 (String.length d - 1) d in
    if bool_decide (is_Some (dirs w !! d')) then Some d' else None.

(** Where a file of that path is created: its directory and its name. *)
Definition creation_site (w : world) (path : string) : option (string * string) :=
  match split_last_slash path with
  | Some (d, name) =>
    if String.eqb name "" then None
    else match parent_key w d with
         | Some key => Some (key, name)
         | None => None
         end
  | None => None
  end.

(** The listing of directory [key] once it holds [name]. *)
Definition add_entry (key name : string) (ds : gmap string (list string))
  : gmap string (list string) :=
  alter (fun names => if existsb (String.eqb name) names then names
                      else names ++ [name]) key ds.

Definition mount (conf : esp_vfs_littlefs_conf_t) : M world Z :=
  fun w => if flash_ok w then Ret (ESP_OK, set_mounted true w)
           else Ret (ESP_FAIL, w).

Definition info (label : option string) (total used : Z) : M world (Z * Z * Z) :=
  fun w => if mounted w
           then Ret ((ESP_OK, Z.of_nat (partition_size w),
                      Z.of_nat (partition_size w - disk_free w)), w)
           else Ret ((ESP_ERR_INVALID_STATE, total, used), w).

Definition err_name (e : Z) : string :=
  if e =? ESP_OK then "ESP_OK"
  else if e =? ESP_FAIL then "ESP_FAIL"
  else "UNKNOWN ERROR".

Definition open_stream (path : string) (rd wr : bool) (w : world) : outcome (ptr * world) :=
  let F := {| f_path := path; f_readable := rd; f_writable := wr;
              f_pos := 0; f_eof := false; f_err := false; f_data := [] |} in
  Ret (fresh w, bump (set_streams (<[fresh w := F]> (streams w)) w)).

Definition m_fopen (path mode : string) : M world ptr :=
  fun w =>
    if negb (mounted w) then Ret (NULL, set_errno ENOENT w)
    else if String.eqb mode "rb" then
      match files w !! path with
      | Some _ => open_stream path true false w
      | None => Ret (NULL, set_errno ENOENT w)
      end
    else if String.eqb mode "wb" then
      if is_dir w path then Ret (NULL, set_errno EISDIR w)
      else
        match creation_site w path with
        | None => Ret (NULL, set_errno ENOENT w)
        | Some (key, name) =>
          open_stream path false true
            (set_dirs (add_entry key name (dirs w))
               (set_files (<[path := []]> (files w)) (disk_free w) w))
        end
    else Ret (NULL, set_errno EINVAL w).

Definition m_fclose (f : ptr) : M world Z :=
  fun w => match streams w !! f with
           | Some F =>
             let w1 := set_streams (delete f (streams w)) w in
             if f_writable F then
               if (disk_free w =? 0)%nat then Ret (EOF, set_errno ENOSPC w1)
               else Ret (0, set_files (<[f_path F := f_data F]> (files w1))
                                      (disk_free w1) w1)
             else Ret (0, w1)
           | None => Undef
           end.

(** The content of the file as the stream has it: what the stream holds
    when it is open for writing, the file otherwise. *)
Definition contents (w : world) (F : FILE) : list ascii :=
  if f_writable F then f_data F else default [] (files w !! f_path F).

Definition items (size : Z) (bytes : nat) : Z :=
  if size =? 0 then 0 else Z.of_nat bytes / size.

Definition m_fread (buf : list ascii) (size nmemb : Z) (f : ptr)
  : M world (Z * list ascii) :=
  fun w =>
    match streams w !! f with
    | None => Undef
    | Some F =>
      if (Z.to_nat (size * nmemb) =? 0)%nat then Ret ((0, buf), w)
      else if negb (f_readable F) then
        Ret ((0, buf),
             set_errno EBADF
               (set_streams (<[f := set_flags (f_eof F) true (f_pos F) F]> (streams w)) w))
      else
        let want := Z.to_nat (size * nmemb) in
        let data := take want (drop (f_pos F) (contents w F)) in
        if (length buf <? length data)%nat then Undef
        else
          let F' := set_flags (f_eof F || (length data <? want)%nat) (f_err F)
                              (f_pos F + length data) F in
          Ret ((items size (length data), data ++ drop (length data) buf),
               set_streams (<[f := F']> (streams w)) w)
    end.

(** The file content after [data] is written at offset [pos]. *)
Definition write_at (pos : nat) (data content : list ascii) : list ascii :=
  take pos content ++ replicate (pos - length content) NUL
    ++ data ++ drop (pos + length data) content.

Definition m_fwrite (buf : list ascii) (size nmemb : Z) (f : ptr) : M world Z :=
  fun w =>
    match streams w !! f with
    | None => Undef
    | Some F =>
      if (Z.to_nat (size * nmemb) =? 0)%nat then Ret (0, w)
      else if negb (f_writable F) then
        Ret (0,
             set_errno EBADF
               (set_streams (<[f := set_flags (f_eof F) true (f_pos F) F]> (streams w)) w))
      else
        let want := Z.to_nat (size * nmemb) in
        if (length buf <? want)%nat then Undef
        else
          let data := take (Nat.min want (disk_free w)) buf in
          let short := (length data <? want)%nat in
          let F' := set_data (write_at (f_pos F) data (f_data F))
                      (set_flags (f_eof F) (f_err F || short) (f_pos F + length data) F) in
          let w1 := set_files (files w) (disk_free w - length data) w in
          let w2 := set_streams (<[f := F']> (streams w)) w1 in
          Ret (items size (length data),
               if short then set_errno ENOSPC w2 else w2)
    end.

Definition m_fseek (f : ptr) (off origin : Z) : M world Z :=
  fun w =>
    match streams w !! f with
    | None => Undef
    | Some F =>
      let base :=
        if origin =? SEEK_SET then Some 0
        else if origin =? SEEK_CUR then Some (Z.of_nat (f_pos F))
        else if origin =? SEEK_END then Some (Z.of_nat (length (contents w F)))
        else None in
      match base with
      | None => Ret (-1, set_errno EINVAL w)
      | Some b =>
        if b + off <? 0 then Ret (-1, set_errno EINVAL w)
        else Ret (0, set_streams
                       (<[f := set_flags false (f_err F) (Z.to_nat (b + off)) F]> (streams w)) w)
      end
    end.

Definition m_ftell (f : ptr) : M world Z :=
  fun w => match streams w !! f with
           | Some F => Ret (Z.of_nat (f_pos F), w)
           | None => Undef
           end.

Definition m_feof (f : ptr) (w : world) : Z :=
  match streams w !! f with
  | Some F => if f_eof F then 1 else 0
  | None => 0
  end.

Definition m_ferror (f : ptr) (w : world) : Z :=
  match streams w !! f with
  | Some F => if f_err F then 1 else 0
  | None => 0
  end.

Definition m_opendir (path : string) : M world ptr :=
  fun w =>
    if negb (mounted w) then Ret (NULL, set_errno ENOENT w)
    else match dirs w !! path with
         | Some names =>
           Ret (fresh w, bump (set_dstreams (<[fresh w := names]> (dstreams w)) w))
         | None => Ret (NULL, set_errno ENOENT w)
         end.

Definition m_readdir (d : ptr) : M world (option dirent) :=
  fun w => match dstreams w !! d with
           | None => Undef
           | Some [] => Ret (None, w)
           | Some (name :: rest) =>
             Ret (Some {| d_name := name |},
                  set_dstreams (<[d := rest]> (dstreams w)) w)
           end.

Definition m_closedir (d : ptr) : M world Z :=
  fun w => match dstreams w !! d with
           | Some _ => Ret (0, set_dstreams (delete d (dstreams w)) w)
           | None => Undef
           end.

Definition impl : libc world :=
  {| esp_vfs_littlefs_register := mount;
     esp_littlefs_info := info;
     esp_err_to_name := err_name;
     fopen := m_fopen;
     fclose := m_fclose;
     fread := m_fread;
     fwrite := m_fwrite;
     fseek := m_fseek;
     ftell := m_ftell;
     feof := m_feof;
     ferror := m_ferror;
     errno := last_errno;
     opendir := m_opendir;
     readdir := m_readdir;
     closedir := m_closedir |}.

(** The mount point used in the examples. *)
Definition mount_point : string := "/littlefs".

(** A mounted flash holding one file and two directories. *)
Definition disk : world :=
  {| flash_ok := true; mounted := true;
     partition_size := 4096; disk_free := 4000;
     files := {[ "/littlefs/a.txt"%string := list_ascii_of_string "hi" ]};
     dirs := {[ "/littlefs/"%string := ["a.txt"; "img"]%string;
                "/littlefs/img"%string := [] ]};
     streams := ∅; dstreams := ∅; next_ptr := 1; last_errno := 0 |}.

(** A flash that cannot be mounted. *)
Definition broken_flash : world :=
  {| flash_ok := false; mounted := false;
     partition_size := 0; disk_free := 0;
     files := ∅; dirs := ∅; streams := ∅; dstreams := ∅;
     next_ptr := 1; last_errno := 0 |}.

Definition boot (w : world) : state world :=
  {| os := w; log := []; fs_drivers := [] |}.

End MemOS.


(** ** Runs of the port on the in-memory platform *)

Module Scenario.

Import MemOS.

(** The value a computation returns. *)
Definition value {A : Type} (c : M (state world) A) (st : state world) : option A :=
  match c st with
  | Ret (a, _) => Some a
  | Undef => None
  end.

(** The state a computation leaves behind. *)
Definition after {A : Type} (c : M (state world) A) (st : state world) : state world :=
  match c st with
  | Ret (_, st') => st'
  | Undef => st
  end.

Definition buf4 : list ascii := list_ascii_of_string "....".

Definition started : state world := boot disk.

(** [a.txt] opened for reading; the stream is pointer [1]. *)
Definition reading : state world :=
  after (fs_open impl mount_point "S:/a.txt" LV_FS_MODE_RD) started.

(** [a.txt] opened for reading and read to its end. *)
Definition read_once : state world :=
  after (fs_read impl 1 buf4 4 (Some 99)) reading.

(** [a.txt] opened for reading, then a write was attempted on that
    stream, ... *)
Definition write_refused : state world :=
  after (fs_write impl 1 (list_ascii_of_string "xy") 2 (Some 0)) reading.

(** ... then the whole file was read. *)
Definition drained : state world :=
  after (fs_read impl 1 buf4 4 (Some 0)) write_refused.

(** [a.txt] opened for reading and closed again. *)
Definition closed : state world :=
  after (fs_close impl 1) reading.

(** [a.txt] opened for reading, then a seek to offset [1] with the
    out-of-range [whence] value [7]. *)
Definition sought : state world :=
  after (fs_seek impl 1 1 7) reading.

(** [a.txt], which holds two bytes, opened for writing. *)
Definition truncated : state world :=
  after (fs_open impl mount_point "S:/a.txt" LV_FS_MODE_WR) started.

(** The empty directory [img] opened; the cursor is pointer [1]. *)
Definition listing_img : state world :=
  after (fs_dir_open impl mount_point "/img") started.

(** The root directory opened; the cursor is pointer [1]. *)
Definition listing_root : state world :=
  after (fs_dir_open impl mount_point "/") started.

(** ... and its first entry read into a buffer of four cells. *)
Definition first_entry : state world :=
  after (fs_dir_read impl 1 buf4 4) listing_root.

(** The port initialised on the mounted flash. *)
Definition initialised : state world :=
  after (lv_port_fs_init impl mount_point) started.

(** [a.txt] read to its end, then a seek relative to the current position
    with the offset [2^32 - 1]. *)
Definition stepped_back : state world :=
  after (fs_seek impl 1 4294967295 LV_FS_SEEK_CUR) read_once.

(** [a.txt] opened with both mode bits set; the stream is pointer [1]. *)
Definition opened_rw : state world :=
  after (fs_open impl mount_point "S:/a.txt" (Z.lor LV_FS_MODE_RD LV_FS_MODE_WR)) started.

(** [b.txt], which does not exist, opened for writing; the stream is
    pointer [1]. *)
Definition created : state world :=
  after (fs_open impl mount_point "S:/b.txt" LV_FS_MODE_WR) started.

End Scenario.

(** The stream a successful [fopen] creates on the in-memory platform. *)
Definition new_stream (path : string) (rd wr : bool) : MemOS.FILE :=
  {| MemOS.f_path := path; MemOS.f_readable := rd; MemOS.f_writable := wr;
     MemOS.f_pos := 0; MemOS.f_eof := false; MemOS.f_err := false;
     MemOS.f_data := [] |}.

(** * Properties *)

(** ** Helper lemmas on the monad and on C data *)

Lemma not_null (f : ptr) : f <> NULL -> (f =? NULL) = false.
Proof. intros H. apply Z.eqb_neq. exact H. Qed.

Lemma uint32_small (n : Z) : 0 <= n < 2 ^ 32 -> uint32 n = n.
Proof. intros H. unfold uint32. apply Z.mod_small. exact H. Qed.

Lemma bind_sys {W A B : Type} (c : M W A) (k : A -> M (state W) B)
      (st : state W) (a : A) (w : W) :
  c (os st) = Ret (a, w) ->
  bind (sys c) k st = k a (set_os w st).
Proof. intros H. unfold bind, sys. rewrite H. reflexivity. Qed.

Lemma bind_peek {W A B : Type} (f : W -> A) (k : A -> M (state W) B) (st : state W) :
  bind (peek f) k st = k (f (os st)) st.
Proof. reflexivity. Qed.

Lemma bind_access {S A B : Type} (a : A) (k : A -> M S B) (s : S) :
  bind (access (Some a)) k s = k a s.
Proof. reflexivity. Qed.

Lemma os_set_os {W : Type} (w : W) (st : state W) : os (set_os w st) = w.
Proof. reflexivity. Qed.

Lemma substring_all (s : string) (n : nat) :
  (String.length s <= n)%nat -> String.substring 0 n s = s.
Proof.
  revert n. induction s as [|c s IH]; intros n Hn.
  - destruct n; reflexivity.
  - destruct n as [|n]; simpl in Hn; [lia|].
    simpl. f_equal. apply IH. lia.
Qed.

Lemma length_append (s t : string) :
  String.length (s ++ t) = (String.length s + String.length t)%nat.
Proof. induction s as [|c s IH]; simpl; [reflexivity | now rewrite IH]. Qed.

Lemma append_append (s t u : string) : ((s ++ t) ++ u = s ++ (t ++ u))%string.
Proof.
  induction s as [|c s IH]; [reflexivity|].
  change (String c ((s ++ t) ++ u)%string = String c (s ++ (t ++ u))%string).
  now rewrite IH.
Qed.

Lemma append_inv_head (s t u : string) : (s ++ t = s ++ u)%string -> t = u.
Proof.
  induction s as [|c s IH]; intros H; [exact H|].
  apply IH.
  change (String c (s ++ t)%string = String c (s ++ u)%string) in H.
  congruence.
Qed.

Lemma advance_2 (d c : ascii) (p : string) :
  advance 2 (String d (String c p)) = p.
Proof.
  unfold advance. simpl. rewrite Nat.sub_0_r. apply substring_all. lia.
Qed.

(** [snprintf] keeps the whole text when it fits the 256-byte buffer. *)
Lemma snprintf_s_fits (prefix arg : string) :
  (String.length prefix + String.length (c_str arg) <= 255)%nat ->
  snprintf_s 256 prefix arg = (prefix ++ c_str arg)%string.
Proof.
  intros H. unfold snprintf_s. apply substring_all.
  rewrite length_append. simpl. lia.
Qed.

(** ** Path translation *)

(** X12: [fs_open] resolves a path to the same file with and without a drive
    designator in front of it: for a non-empty [p] that does not itself start
    with a designator, ["X:" ++ p] and [p] give the same [filepath]. *)
Lemma fs_open_filepath_drive_letter (LV_FS_PATH : string) (d : ascii) (p : string) :
  p <> EmptyString ->
  char_at p 1 <> Some ":"%char ->
  fs_open_filepath LV_FS_PATH (String d (String ":" p)) = fs_open_filepath LV_FS_PATH p.
Proof.
  intros Hne Hcolon. unfold fs_open_filepath at 1.
  change (char_at (String d (String ":" p)) 1) with (Some ":"%char).
  cbv beta iota. change (Ascii.eqb ":" ":") with true. cbv iota zeta.
  rewrite advance_2.
  unfold fs_open_filepath.
  destruct p as [|c0 p]; [congruence|].
  destruct (char_at (String c0 p) 1) as [c1|] eqn:E1.
  - destruct (Ascii.eqb c1 ":") eqn:E; [|reflexivity].
    apply Ascii.eqb_eq in E. subst c1. congruence.
  - unfold char_at in E1. simpl in E1.
    destruct p as [|c1 p]; simpl in E1; discriminate.
Qed.

(** C1: the path translations of [fs_open] and [fs_dir_open] differ on a
    path that carries a drive designator.  At ["S:/"], [fs_open] strips the
    designator and resolves the mount point's root, the path [fs_dir_open]
    resolves for ["/"]; [fs_dir_open] keeps the designator and resolves
    [LV_FS_PATH "/S:/"]. *)
Theorem fs_dir_open_keeps_drive_letter (LV_FS_PATH : string) :
  (String.length LV_FS_PATH <= 250)%nat ->
  fs_open_filepath LV_FS_PATH "S:/" = Some (LV_FS_PATH ++ "/")%string /\
  fs_dir_open_dirpath LV_FS_PATH "/" = Some (LV_FS_PATH ++ "/")%string /\
  fs_dir_open_dirpath LV_FS_PATH "S:/" = Some (LV_FS_PATH ++ "/S:/")%string /\
  fs_dir_open_dirpath LV_FS_PATH "S:/" <> fs_open_filepath LV_FS_PATH "S:/" /\
  fs_dir_open_dirpath LV_FS_PATH "S:/" <> fs_dir_open_dirpath LV_FS_PATH "/".
Proof.
  intros Hlen.
  assert (Ho : fs_open_filepath LV_FS_PATH "S:/" = Some (LV_FS_PATH ++ "/")%string).
  { unfold fs_open_filepath. simpl.
    rewrite snprintf_s_fits by (simpl; lia). reflexivity. }
  assert (Hr : fs_dir_open_dirpath LV_FS_PATH "/" = Some (LV_FS_PATH ++ "/")%string).
  { unfold fs_dir_open_dirpath. simpl.
    rewrite snprintf_s_fits by (simpl; lia). reflexivity. }
  assert (Hd : fs_dir_open_dirpath LV_FS_PATH "S:/" = Some (LV_FS_PATH ++ "/S:/")%string).
  { unfold fs_dir_open_dirpath. simpl.
    rewrite snprintf_s_fits by (rewrite length_append; simpl; lia).
    rewrite append_append. reflexivity. }
  assert (Hneq : (LV_FS_PATH ++ "/S:/")%string <> (LV_FS_PATH ++ "/")%string).
  { intros H. apply append_inv_head in H. discriminate H. }
  repeat split; try assumption.
  - rewrite Hd, Ho. intros H. apply Hneq. congruence.
  - rewrite Hd, Hr. intros H. apply Hneq. congruence.
Qed.

Lemma fs_dir_open_keeps_drive_letter_witness :
  (String.length MemOS.mount_point <= 250)%nat /\
  fs_dir_open_dirpath MemOS.mount_point "S:/" = Some "/littlefs/S:/"%string /\
  fs_open_filepath MemOS.mount_point "S:/" = Some "/littlefs/"%string.
Proof.
  assert (H : (String.length MemOS.mount_point <= 250)%nat) by (simpl; lia).
  split; [exact H|].
  destruct (fs_dir_open_keeps_drive_letter MemOS.mount_point H) as (Ho & _ & Hd & _).
  split; [exact Hd | exact Ho].
Defined.

(** ** Start-up *)

(** The configuration [fs_init] mounts with. *)
Lemma fs_init_mount_failed {W : Type} (C : libc W) (LV_FS_PATH : string)
      (st : state W) (r : Z) (w' : W) :
  esp_vfs_littlefs_register C
    {| base_path := LV_FS_PATH; partition_label := None;
       format_if_mount_failed := true; dont_mount := false |} (os st) = Ret (r, w') ->
  r <> ESP_OK ->
  fs_init C LV_FS_PATH st =
    Ret (tt, {| os := w';
                log := log st ++ [{| lvl := LOG_ERROR; tag := TAG;
                                     msg := Msg_mount_failed (esp_err_to_name C r) |}];
                fs_drivers := fs_drivers st |}).
Proof.
  intros Hreg Hr. unfold fs_init.
  rewrite (bind_sys _ _ _ _ _ Hreg).
  apply Z.eqb_neq in Hr. rewrite Hr. reflexivity.
Qed.

(** C2, as the code has it: when the mount fails, [fs_init] logs the failure
    and returns at once, making no further call into the platform; the
    caller [lv_port_fs_init] cannot see that and goes on to register the
    driver, with its nine callbacks and the letter ['S'], at the head of
    LVGL's driver list. *)
Theorem mount_failure_logged_driver_registered {W : Type} (C : libc W)
        (LV_FS_PATH : string) (st : state W) (r : Z) (w' : W) :
  esp_vfs_littlefs_register C
    {| base_path := LV_FS_PATH; partition_label := None;
       format_if_mount_failed := true; dont_mount := false |} (os st) = Ret (r, w') ->
  r <> ESP_OK ->
  lv_port_fs_init C LV_FS_PATH st =
    Ret (tt, {| os := w';
                log := log st ++ [{| lvl := LOG_ERROR; tag := TAG;
                                     msg := Msg_mount_failed (esp_err_to_name C r) |}];
                fs_drivers := fs_drv :: fs_drivers st |}) /\
  letter fs_drv = "S"%char /\
  open_cb fs_drv = Some cb_fs_open /\ close_cb fs_drv = Some cb_fs_close /\
  read_cb fs_drv = Some cb_fs_read /\ write_cb fs_drv = Some cb_fs_write /\
  seek_cb fs_drv = Some cb_fs_seek /\ tell_cb fs_drv = Some cb_fs_tell /\
  dir_open_cb fs_drv = Some cb_fs_dir_open /\
  dir_read_cb fs_drv = Some cb_fs_dir_read /\
  dir_close_cb fs_drv = Some cb_fs_dir_close.
Proof.
  intros Hreg Hr. split; [|repeat split].
  unfold lv_port_fs_init, bind.
  rewrite (fs_init_mount_failed C LV_FS_PATH st r w' Hreg Hr).
  reflexivity.
Qed.

Lemma mount_failure_logged_driver_registered_witness :
  lv_port_fs_init MemOS.impl MemOS.mount_point (MemOS.boot MemOS.broken_flash) =
    Ret (tt, {| os := MemOS.broken_flash;
                log := [{| lvl := LOG_ERROR; tag := TAG;
                           msg := Msg_mount_failed "ESP_FAIL" |}];
                fs_drivers := [fs_drv] |}).
Proof.
  refine (proj1 (mount_failure_logged_driver_registered MemOS.impl MemOS.mount_point
                   (MemOS.boot MemOS.broken_flash) ESP_FAIL MemOS.broken_flash _ _)).
  - reflexivity.
  - unfold ESP_FAIL, ESP_OK. lia.
Defined.

(** C2, as stated, fails on a flash that cannot be mounted: the mount
    returns [ESP_FAIL], and when [lv_port_fs_init] returns the driver is in
    LVGL's list, which was empty before. *)
Lemma registration_completed_after_mount_failure :
  esp_vfs_littlefs_register MemOS.impl
    {| base_path := MemOS.mount_point; partition_label := None;
       format_if_mount_failed := true; dont_mount := false |}
    MemOS.broken_flash = Ret (ESP_FAIL, MemOS.broken_flash) /\
  ESP_FAIL <> ESP_OK /\
  fs_drivers (MemOS.boot MemOS.broken_flash) = [] /\
  exists st',
    lv_port_fs_init MemOS.impl MemOS.mount_point (MemOS.boot MemOS.broken_flash)
      = Ret (tt, st') /\
    fs_drivers st' = [fs_drv] /\
    fs_drivers st' <> fs_drivers (MemOS.boot MemOS.broken_flash).
Proof.
  split; [reflexivity|]. split; [discriminate|]. split; [reflexivity|].
  eexists. split; [reflexivity|]. split; [reflexivity|]. discriminate.
Qed.

(** ** Handles *)

(** C3, as the code has it: every operation that takes a handle answers
    [LV_FS_RES_UNKNOWN] to a null handle, and then touches neither the
    platform nor the caller's outputs.  No record of closed handles is kept:
    a non-null handle goes to the platform whatever its state, the callback
    having no defined result when the platform call has none, and closing
    it reports [LV_FS_RES_OK] whenever the platform call returns, whatever
    it returns. *)
Theorem null_handle_unknown_error {W : Type} (C : libc W) (st : state W)
        (buf fn : list ascii) (n pos whence : Z) (c : cell) :
  fs_close C NULL st = Ret (LV_FS_RES_UNKNOWN, st) /\
  fs_read C NULL buf n c st = Ret ((LV_FS_RES_UNKNOWN, buf, c), st) /\
  fs_write C NULL buf n c st = Ret ((LV_FS_RES_UNKNOWN, c), st) /\
  fs_seek C NULL pos whence st = Ret (LV_FS_RES_UNKNOWN, st) /\
  fs_tell C NULL c st = Ret ((LV_FS_RES_UNKNOWN, c), st) /\
  fs_dir_read C NULL fn n st = Ret ((LV_FS_RES_UNKNOWN, fn), st) /\
  fs_dir_close C NULL st = Ret (LV_FS_RES_UNKNOWN, st) /\
  forall h : ptr,
    h <> NULL ->
    fs_close C h st =
      match fclose C h (os st) with
      | Ret (_, w') => Ret (LV_FS_RES_OK, set_os w' st)
      | Undef => Undef
      end /\
    fs_dir_close C h st =
      match closedir C h (os st) with
      | Ret (_, w') => Ret (LV_FS_RES_OK, set_os w' st)
      | Undef => Undef
      end /\
    fs_read C h buf n c st =
      match fread C buf 1 n h (os st) with
      | Ret ((k, buf'), w') =>
        match store_cell c (uint32 k) with
        | Some c' =>
          Ret ((if (k =? 0) && (feof C h w' =? 0) && negb (ferror C h w' =? 0)
                then LV_FS_RES_UNKNOWN else LV_FS_RES_OK, buf', c'),
               set_os w' st)
        | None => Undef
        end
      | Undef => Undef
      end /\
    fs_write C h buf n c st =
      match fwrite C buf 1 n h (os st) with
      | Ret (k, w') =>
        match store_cell c (uint32 k) with
        | Some c' =>
          Ret ((if (k <? n) && negb (ferror C h w' =? 0)
                then LV_FS_RES_UNKNOWN else LV_FS_RES_OK, c'),
               set_os w' st)
        | None => Undef
        end
      | Undef => Undef
      end /\
    fs_seek C h pos whence st =
      match fseek C h (to_long pos) (fs_seek_origin whence) (os st) with
      | Ret (r, w') =>
        Ret (if r =? 0 then LV_FS_RES_OK else LV_FS_RES_UNKNOWN, set_os w' st)
      | Undef => Undef
      end /\
    fs_tell C h c st =
      match c with
      | None => Ret ((LV_FS_RES_UNKNOWN, c), st)
      | Some v =>
        match ftell C h (os st) with
        | Ret (p, w') =>
          Ret (if p <? 0 then (LV_FS_RES_UNKNOWN, c)
               else (LV_FS_RES_OK, Some (uint32 p)),
               set_os w' st)
        | Undef => Undef
        end
      end /\
    fs_dir_read C h fn n st =
      match readdir C h (os st) with
      | Ret (entry, w') =>
        match match entry with
              | None => store_char fn 0 NUL
              | Some e =>
                match strncpy fn (d_name e) (uint32 (n - 1)) with
                | Some fn1 => store_char fn1 (uint32 (n - 1)) NUL
                | None => None
                end
              end with
        | Some fn' => Ret ((LV_FS_RES_OK, fn'), set_os w' st)
        | None => Undef
        end
      | Undef => Undef
      end.
Proof.
  repeat (split; [reflexivity|]).
  intros h Hh. apply not_null in Hh.
  repeat split.
  - unfold fs_close, bind, sys, ret. rewrite Hh.
    destruct (fclose C h (os st)) as [[r w']|]; reflexivity.
  - unfold fs_dir_close, bind, sys, ret. rewrite Hh.
    destruct (closedir C h (os st)) as [[r w']|]; reflexivity.
  - unfold fs_read, bind, sys, peek, access, ret, undef. rewrite Hh.
    destruct (fread C buf 1 n h (os st)) as [[[k buf'] w']|]; [|reflexivity].
    destruct (store_cell c (uint32 k)) as [c'|]; [|reflexivity].
    destruct (k =? 0); [|reflexivity].
    cbn [os set_os andb].
    destruct (feof C h w' =? 0); cbn [negb andb os set_os]; [|reflexivity].
    destruct (ferror C h w' =? 0); reflexivity.
  - unfold fs_write, bind, sys, peek, access, ret, undef. rewrite Hh.
    destruct (fwrite C buf 1 n h (os st)) as [[k w']|]; [|reflexivity].
    destruct (store_cell c (uint32 k)) as [c'|]; [|reflexivity].
    destruct (k <? n); [|reflexivity].
    cbn [os set_os andb].
    destruct (ferror C h w' =? 0); reflexivity.
  - unfold fs_seek, bind, sys, ret. rewrite Hh.
    destruct (fseek C h (to_long pos) (fs_seek_origin whence) (os st)) as [[r w']|];
      reflexivity.
  - unfold fs_tell. rewrite Hh. destruct c as [v|]; [|reflexivity].
    replace (bool_decide (is_Some (Some v))) with true
      by (symmetry; apply bool_decide_eq_true; eauto).
    cbn [orb negb]. unfold bind, sys, access, ret, store_cell.
    destruct (ftell C h (os st)) as [[p w']|]; [|reflexivity].
    destruct (p <? 0); reflexivity.
  - unfold fs_dir_read, bind, sys, access, ret, undef. rewrite Hh.
    destruct (readdir C h (os st)) as [[[e|] w']|]; [| |reflexivity].
    + destruct (strncpy fn (d_name e) (uint32 (n - 1))) as [fn1|]; [|reflexivity].
      destruct (store_char fn1 (uint32 (n - 1)) NUL); reflexivity.
    + destruct (store_char fn 0 NUL); reflexivity.
Qed.

Lemma null_handle_unknown_error_witness :
  1 <> NULL /\
  fs_close MemOS.impl 1 Scenario.reading = Ret (LV_FS_RES_OK, Scenario.closed).
Proof.
  assert (H : 1 <> NULL) by (unfold NULL; lia).
  split; [exact H|].
  rewrite (proj1 (proj2 (proj2 (proj2 (proj2 (proj2 (proj2 (proj2
             (null_handle_unknown_error MemOS.impl Scenario.reading [] [] 0 0 0 None)))))))
             1 H)).
  vm_compute. reflexivity.
Defined.


(** C3, as stated, fails on a handle that was closed: the second [fs_close]
    of the same stream, and a read on it, reach the C library with a stale
    pointer and have no defined result; in particular they do not return
    [LV_FS_RES_UNKNOWN]. *)
Lemma closed_handle_not_rejected :
  fs_open MemOS.impl MemOS.mount_point "S:/a.txt" LV_FS_MODE_RD Scenario.started
    = Ret (1, Scenario.reading) /\
  1 <> NULL /\
  fs_close MemOS.impl 1 Scenario.reading = Ret (LV_FS_RES_OK, Scenario.closed) /\
  fs_close MemOS.impl 1 Scenario.closed = Undef /\
  fs_read MemOS.impl 1 Scenario.buf4 4 (Some 0) Scenario.closed = Undef /\
  (forall st', fs_close MemOS.impl 1 Scenario.closed <> Ret (LV_FS_RES_UNKNOWN, st')).
Proof.
  assert (Hc : fs_close MemOS.impl 1 Scenario.closed = Undef) by (vm_compute; reflexivity).
  split; [vm_compute; reflexivity|].
  split; [discriminate|].
  split; [vm_compute; reflexivity|].
  split; [exact Hc|].
  split; [vm_compute; reflexivity|].
  intros st'. rewrite Hc. discriminate.
Qed.

(** ** Read and write *)

(** What [fs_read] does once [fread] has returned: the count is stored and
    the status follows the stream indicators, end-of-file first. *)
Lemma fs_read_after_fread {W : Type} (C : libc W) (st : state W) (f : ptr)
      (buf buf' : list ascii) (btr v n : Z) (w' : W) :
  f <> NULL ->
  fread C buf 1 btr f (os st) = Ret ((n, buf'), w') ->
  fs_read C f buf btr (Some v) st =
    Ret ((if (n =? 0) && (feof C f w' =? 0) && negb (ferror C f w' =? 0)
          then LV_FS_RES_UNKNOWN else LV_FS_RES_OK,
          buf', Some (uint32 n)), set_os w' st).
Proof.
  intros Hf Hread. unfold fs_read. rewrite (not_null f Hf).
  rewrite (bind_sys _ _ _ _ _ Hread). cbv beta iota.
  unfold store_cell. rewrite bind_access.
  destruct (n =? 0); [|reflexivity].
  rewrite bind_peek, os_set_os.
  destruct (feof C f w' =? 0); [|reflexivity].
  cbn [negb]. rewrite bind_peek, os_set_os.
  destruct (ferror C f w' =? 0); reflexivity.
Qed.

(** What [fs_write] does once [fwrite] has returned. *)
Lemma fs_write_after_fwrite {W : Type} (C : libc W) (st : state W) (f : ptr)
      (buf : list ascii) (btw v n : Z) (w' : W) :
  f <> NULL ->
  fwrite C buf 1 btw f (os st) = Ret (n, w') ->
  fs_write C f buf btw (Some v) st =
    Ret ((if (n <? btw) && negb (ferror C f w' =? 0)
          then LV_FS_RES_UNKNOWN else LV_FS_RES_OK,
          Some (uint32 n)), set_os w' st).
Proof.
  intros Hf Hwrite. unfold fs_write. rewrite (not_null f Hf).
  rewrite (bind_sys _ _ _ _ _ Hwrite).
  unfold store_cell. rewrite bind_access.
  destruct (n <? btw); [|reflexivity].
  rewrite bind_peek, os_set_os.
  destruct (ferror C f w' =? 0); reflexivity.
Qed.

(** C4, as the code has it: on a non-null handle, once [fread] has returned
    [n] items, the count [n] is stored and the status is
    - [LV_FS_RES_OK] if [n = 0] and the stream is at end-of-file, whatever
      its error indicator;
    - [LV_FS_RES_UNKNOWN] if [n = 0], the stream is not at end-of-file and
      its error indicator is set;
    - [LV_FS_RES_OK] if [n = 0] and neither indicator is set;
    - [LV_FS_RES_OK] if [0 < n], in particular for a partial read. *)
Theorem fs_read_status {W : Type} (C : libc W) (st : state W) (f : ptr)
        (buf buf' : list ascii) (btr v n : Z) (w' : W) :
  f <> NULL ->
  btr < 2 ^ 32 ->
  0 <= n <= btr ->
  fread C buf 1 btr f (os st) = Ret ((n, buf'), w') ->
  exists res : lv_fs_res_t,
    fs_read C f buf btr (Some v) st = Ret ((res, buf', Some n), set_os w' st) /\
    (n = 0 -> feof C f w' <> 0 -> res = LV_FS_RES_OK) /\
    (n = 0 -> feof C f w' = 0 -> ferror C f w' <> 0 -> res = LV_FS_RES_UNKNOWN) /\
    (n = 0 -> feof C f w' = 0 -> ferror C f w' = 0 -> res = LV_FS_RES_OK) /\
    (0 < n -> res = LV_FS_RES_OK).
Proof.
  intros Hf Hbtr Hn Hread.
  eexists. split.
  - rewrite (fs_read_after_fread C st f buf buf' btr v n w' Hf Hread).
    rewrite uint32_small by lia. reflexivity.
  - repeat split.
    + intros -> He. apply Z.eqb_neq in He. rewrite He. reflexivity.
    + intros -> He Hr. apply Z.eqb_neq in Hr. rewrite He, Hr. reflexivity.
    + intros -> He Hr. rewrite He, Hr. reflexivity.
    + intros Hpos. assert (E : (n =? 0) = false) by (apply Z.eqb_neq; lia).
      rewrite E. reflexivity.
Qed.

Lemma fs_read_status_witness :
  exists res : lv_fs_res_t,
    fs_read MemOS.impl 1 Scenario.buf4 4 (Some 99) Scenario.reading
      = Ret ((res, list_ascii_of_string "hi..", Some 2),
             set_os (os Scenario.read_once) Scenario.reading) /\
    (0 < 2 -> res = LV_FS_RES_OK).
Proof.
  destruct (fs_read_status MemOS.impl Scenario.reading 1 Scenario.buf4
              (list_ascii_of_string "hi..") 4 99 2 (os Scenario.read_once))
    as (res & Hrun & _ & _ & _ & Hpos).
  - unfold NULL. lia.
  - lia.
  - lia.
  - vm_compute. reflexivity.
  - exists res. split; [exact Hrun | exact Hpos].
Defined.

(** C4, as stated, fails on a stream whose two indicators are both set: a
    write attempted on the read-only stream has set its error indicator, the
    file has then been read to its end, and the next read transfers nothing.
    The stream reports an error, and the status is [LV_FS_RES_OK]. *)
Lemma read_at_eof_with_error_is_ok :
  1 <> NULL /\
  fread MemOS.impl Scenario.buf4 1 4 1 (os Scenario.drained)
    = Ret ((0, Scenario.buf4), os Scenario.drained) /\
  feof MemOS.impl 1 (os Scenario.drained) <> 0 /\
  ferror MemOS.impl 1 (os Scenario.drained) <> 0 /\
  fs_read MemOS.impl 1 Scenario.buf4 4 (Some 99) Scenario.drained
    = Ret ((LV_FS_RES_OK, Scenario.buf4, Some 0), Scenario.drained) /\
  LV_FS_RES_OK <> LV_FS_RES_UNKNOWN.
Proof.
  split; [discriminate|].
  split; [vm_compute; reflexivity|].
  split; [vm_compute; discriminate|].
  split; [vm_compute; discriminate|].
  split; [vm_compute; reflexivity|].
  discriminate.
Qed.

(** C5: on a non-null handle, once [fwrite] has returned [n] items, the
    count [n] is stored in every case, and the status is
    [LV_FS_RES_UNKNOWN] exactly when [n] is less than the requested count
    and the stream's error indicator is set; it is [LV_FS_RES_OK]
    otherwise, short writes without the indicator included. *)
Theorem fs_write_status {W : Type} (C : libc W) (st : state W) (f : ptr)
        (buf : list ascii) (btw v n : Z) (w' : W) :
  f <> NULL ->
  btw < 2 ^ 32 ->
  0 <= n <= btw ->
  fwrite C buf 1 btw f (os st) = Ret (n, w') ->
  exists res : lv_fs_res_t,
    fs_write C f buf btw (Some v) st = Ret ((res, Some n), set_os w' st) /\
    (res = LV_FS_RES_UNKNOWN <-> n < btw /\ ferror C f w' <> 0) /\
    (res <> LV_FS_RES_UNKNOWN -> res = LV_FS_RES_OK).
Proof.
  intros Hf Hbtw Hn Hwrite.
  eexists. split.
  - rewrite (fs_write_after_fwrite C st f buf btw v n w' Hf Hwrite).
    rewrite uint32_small by lia. reflexivity.
  - destruct (n <? btw) eqn:Elt; destruct (ferror C f w' =? 0) eqn:Eerr; cbn.
    + apply Z.eqb_eq in Eerr. split; [split|]; try discriminate; try tauto.
    + apply Z.eqb_neq in Eerr. apply Z.ltb_lt in Elt. split; [tauto|congruence].
    + apply Z.ltb_ge in Elt. split; [split|]; try discriminate; try tauto. lia.
    + apply Z.ltb_ge in Elt. split; [split|]; try discriminate; try tauto. lia.
Qed.

Lemma fs_write_status_witness :
  exists res : lv_fs_res_t,
    fs_write MemOS.impl 1 (list_ascii_of_string "xy") 2 (Some 77) Scenario.reading
      = Ret ((res, Some 0), set_os (os Scenario.write_refused) Scenario.reading) /\
    (res = LV_FS_RES_UNKNOWN <->
     0 < 2 /\ ferror MemOS.impl 1 (os Scenario.write_refused) <> 0).
Proof.
  destruct (fs_write_status MemOS.impl Scenario.reading 1 (list_ascii_of_string "xy")
              2 77 0 (os Scenario.write_refused))
    as (res & Hrun & Hiff & _).
  - unfold NULL. lia.
  - lia.
  - lia.
  - vm_compute. reflexivity.
  - exists res. split; [exact Hrun | exact Hiff].
Defined.

(** C9: with a null handle, [fs_read] and [fs_write] return
    [LV_FS_RES_UNKNOWN] and leave the caller's count as it was; with a
    non-null handle the count returned by [fread] or [fwrite] is stored,
    whatever the status. *)
Theorem count_slot_written_iff_handle {W : Type} (C : libc W) (st : state W)
        (buf : list ascii) (btr btw : Z) (slot : cell) :
  fs_read C NULL buf btr slot st = Ret ((LV_FS_RES_UNKNOWN, buf, slot), st) /\
  fs_write C NULL buf btw slot st = Ret ((LV_FS_RES_UNKNOWN, slot), st) /\
  (forall (f : ptr) (v n : Z) (buf' : list ascii) (w' : W),
      f <> NULL -> 0 <= n < 2 ^ 32 ->
      fread C buf 1 btr f (os st) = Ret ((n, buf'), w') ->
      exists res, fs_read C f buf btr (Some v) st
                  = Ret ((res, buf', Some n), set_os w' st)) /\
  (forall (f : ptr) (v n : Z) (w' : W),
      f <> NULL -> 0 <= n < 2 ^ 32 ->
      fwrite C buf 1 btw f (os st) = Ret (n, w') ->
      exists res, fs_write C f buf btw (Some v) st
                  = Ret ((res, Some n), set_os w' st)).
Proof.
  split; [reflexivity|]. split; [reflexivity|]. split.
  - intros f v n buf' w' Hf Hn Hread. eexists.
    rewrite (fs_read_after_fread C st f buf buf' btr v n w' Hf Hread).
    rewrite uint32_small by exact Hn. reflexivity.
  - intros f v n w' Hf Hn Hwrite. eexists.
    rewrite (fs_write_after_fwrite C st f buf btw v n w' Hf Hwrite).
    rewrite uint32_small by exact Hn. reflexivity.
Qed.

Lemma count_slot_written_iff_handle_witness :
  fs_read MemOS.impl NULL Scenario.buf4 4 (Some 99) Scenario.reading
    = Ret ((LV_FS_RES_UNKNOWN, Scenario.buf4, Some 99), Scenario.reading) /\
  (exists res, fs_read MemOS.impl 1 Scenario.buf4 4 (Some 99) Scenario.reading
               = Ret ((res, list_ascii_of_string "hi..", Some 2),
                      set_os (os Scenario.read_once) Scenario.reading)) /\
  (exists res, fs_write MemOS.impl 1 Scenario.buf4 4 (Some 99) Scenario.reading
               = Ret ((res, Some 0), set_os (os Scenario.write_refused) Scenario.reading)).
Proof.
  destruct (count_slot_written_iff_handle MemOS.impl Scenario.reading
              Scenario.buf4 4 4 (Some 99)) as (Hnull & _ & Hread & Hwrite).
  split; [exact Hnull|]. split.
  - apply (Hread 1 99 2 (list_ascii_of_string "hi..") (os Scenario.read_once)).
    + unfold NULL. lia.
    + lia.
    + vm_compute. reflexivity.
  - apply (Hwrite 1 99 0 (os Scenario.write_refused)).
    + unfold NULL. lia.
    + lia.
    + vm_compute. reflexivity.
Defined.

(** ** Seek *)

(** C7: on a non-null handle, a [whence] other than the three enumerators
    selects [SEEK_SET], as [LV_FS_SEEK_SET] does, and the status is
    [LV_FS_RES_OK] exactly when [fseek] returns [0]. *)
Theorem fs_seek_status {W : Type} (C : libc W) (st : state W) (f : ptr)
        (pos whence r : Z) (w' : W) :
  f <> NULL ->
  fseek C f (to_long pos) (fs_seek_origin whence) (os st) = Ret (r, w') ->
  (whence <> LV_FS_SEEK_SET -> whence <> LV_FS_SEEK_CUR -> whence <> LV_FS_SEEK_END ->
   fs_seek_origin whence = SEEK_SET) /\
  fs_seek_origin LV_FS_SEEK_SET = SEEK_SET /\
  fs_seek_origin LV_FS_SEEK_CUR = SEEK_CUR /\
  fs_seek_origin LV_FS_SEEK_END = SEEK_END /\
  exists res : lv_fs_res_t,
    fs_seek C f pos whence st = Ret (res, set_os w' st) /\
    (res = LV_FS_RES_OK <-> r = 0).
Proof.
  intros Hf Hseek. split; [|split; [|split; [|split]]]; try reflexivity.
  - intros H0 H1 H2. unfold fs_seek_origin.
    apply Z.eqb_neq in H0, H1, H2. rewrite H0, H1, H2. reflexivity.
  - unfold fs_seek. rewrite (not_null f Hf).
    cbv zeta. rewrite (bind_sys _ _ _ _ _ Hseek).
    exists (if r =? 0 then LV_FS_RES_OK else LV_FS_RES_UNKNOWN).
    split; [reflexivity|].
    destruct (r =? 0) eqn:E.
    + apply Z.eqb_eq in E. tauto.
    + apply Z.eqb_neq in E. split; [discriminate | tauto].
Qed.

Lemma fs_seek_status_witness :
  fs_seek_origin 7 = SEEK_SET /\
  exists res : lv_fs_res_t,
    fs_seek MemOS.impl 1 1 7 Scenario.reading
      = Ret (res, set_os (os Scenario.sought) Scenario.reading) /\
    (res = LV_FS_RES_OK <-> 0 = 0).
Proof.
  destruct (fs_seek_status MemOS.impl Scenario.reading 1 1 7 0 (os Scenario.sought))
    as (Hdef & _ & _ & _ & Hrun).
  - unfold NULL. lia.
  - vm_compute. reflexivity.
  - split; [|exact Hrun].
    apply Hdef; unfold LV_FS_SEEK_SET, LV_FS_SEEK_CUR, LV_FS_SEEK_END; lia.
Defined.

(** ** Open *)

(** The mode string depends on bit 0 of the mode, the value of
    [LV_FS_MODE_WR], and on nothing else. *)
Lemma fs_open_mode_str_bit (mode : Z) :
  fs_open_mode_str mode = if Z.testbit mode 0 then "wb"%string else "rb"%string.
Proof.
  unfold fs_open_mode_str, LV_FS_MODE_WR.
  change 1 with (Z.ones 1). rewrite Z.land_ones by lia.
  change (2 ^ 1) with 2. rewrite <- Z.bit0_mod.
  destruct (Z.testbit mode 0); reflexivity.
Qed.

(** What [fs_open] does once [fopen] has returned: the stream pointer is
    handed back as it is, after one line of log, or two when it is null. *)
Lemma fs_open_after_fopen {W : Type} (C : libc W) (LV_FS_PATH path fp : string)
      (mode : Z) (st : state W) (f : ptr) (w' : W) :
  fs_open_filepath LV_FS_PATH path = Some fp ->
  fopen C fp (fs_open_mode_str mode) (os st) = Ret (f, w') ->
  exists st' : state W,
    fs_open C LV_FS_PATH path mode st = Ret (f, st') /\ os st' = w'.
Proof.
  intros Hfp Hopen. unfold fs_open. rewrite Hfp, bind_access. cbv zeta.
  unfold bind at 1. unfold ESP_LOGI at 1.
  unfold bind at 1. unfold sys at 1. cbn [os]. rewrite Hopen.
  destruct (f =? NULL); eexists; split; reflexivity.
Qed.

Lemma m_fopen_returns (fp mode : string) (w : MemOS.world) :
  exists f w', MemOS.m_fopen fp mode w = Ret (f, w').
Proof.
  unfold MemOS.m_fopen, MemOS.open_stream.
  destruct (negb (MemOS.mounted w)); [eauto|].
  destruct (String.eqb mode "rb").
  - destruct (MemOS.files w !! fp); eauto.
  - destruct (String.eqb mode "wb"); [|eauto].
    destruct (MemOS.is_dir w fp); [eauto|].
    destruct (MemOS.creation_site w fp) as [[key name]|]; eauto.
Qed.

(** ["wb"] leaves the file empty and the other files as they were. *)
Lemma m_fopen_wb (fp : string) (w w' : MemOS.world) (f : ptr) :
  MemOS.m_fopen fp "wb" w = Ret (f, w') ->
  f <> NULL ->
  MemOS.files w' !! fp = Some [] /\
  forall q : string, q <> fp -> MemOS.files w' !! q = MemOS.files w !! q.
Proof.
  unfold MemOS.m_fopen, MemOS.open_stream.
  destruct (negb (MemOS.mounted w)).
  - intros H Hf. injection H as <- _. contradiction.
  - cbn. destruct (MemOS.is_dir w fp).
    + intros H Hf. injection H as <- _. contradiction.
    + destruct (MemOS.creation_site w fp) as [[key name]|].
      * intros H _. injection H as _ <-. cbn. split.
        -- apply lookup_insert_eq.
        -- intros q Hq. apply lookup_insert_ne. congruence.
      * intros H Hf. injection H as <- _. contradiction.
Qed.

(** ["rb"] creates no file and changes none. *)
Lemma m_fopen_rb (fp : string) (w w' : MemOS.world) (f : ptr) :
  MemOS.m_fopen fp "rb" w = Ret (f, w') ->
  MemOS.files w' = MemOS.files w.
Proof.
  unfold MemOS.m_fopen, MemOS.open_stream.
  destruct (negb (MemOS.mounted w)).
  - intros H. injection H as _ <-. reflexivity.
  - cbn. destruct (MemOS.files w !! fp); intros H; injection H as _ <-; reflexivity.
Qed.

(** C6: the mode string given to [fopen] is ["wb"] when bit 0 of the mode,
    [LV_FS_MODE_WR], is set and ["rb"] otherwise, and [fs_open] hands back
    what [fopen] returns for the translated path and that mode string.  On
    the in-memory platform, whose [fopen] follows the C standard, a
    successful open with the write bit leaves the file empty and the other
    files untouched, and an open without it leaves every file as it was and
    creates none. *)
Theorem fs_open_mode_from_write_bit (LV_FS_PATH path fp : string) (mode : Z) :
  fs_open_filepath LV_FS_PATH path = Some fp ->
  fs_open_mode_str mode = (if Z.testbit mode 0 then "wb"%string else "rb"%string) /\
  (forall (W : Type) (C : libc W) (st : state W) (f : ptr) (w' : W),
      fopen C fp (fs_open_mode_str mode) (os st) = Ret (f, w') ->
      exists st' : state W,
        fs_open C LV_FS_PATH path mode st = Ret (f, st') /\ os st' = w') /\
  (forall (st st' : state MemOS.world) (f : ptr),
      fs_open MemOS.impl LV_FS_PATH path mode st = Ret (f, st') ->
      if Z.testbit mode 0
      then f <> NULL ->
           MemOS.files (os st') !! fp = Some [] /\
           forall q : string, q <> fp ->
                              MemOS.files (os st') !! q = MemOS.files (os st) !! q
      else MemOS.files (os st') = MemOS.files (os st)).
Proof.
  intros Hfp. split; [apply fs_open_mode_str_bit|]. split.
  - intros W C st f w'. apply fs_open_after_fopen. exact Hfp.
  - intros st st' f Hrun.
    destruct (m_fopen_returns fp (fs_open_mode_str mode) (os st)) as (f0 & w0 & Hopen).
    destruct (fs_open_after_fopen MemOS.impl LV_FS_PATH path fp mode st f0 w0 Hfp Hopen)
      as (st0 & Hrun0 & Hos).
    rewrite Hrun in Hrun0. injection Hrun0 as <- <-.
    rewrite fs_open_mode_str_bit in Hopen. rewrite Hos.
    destruct (Z.testbit mode 0).
    + intros Hf. exact (m_fopen_wb fp (os st) w0 f Hopen Hf).
    + exact (m_fopen_rb fp (os st) w0 f Hopen).
Qed.

Lemma fs_open_mode_from_write_bit_witness :
  MemOS.files (os Scenario.started) !! "/littlefs/a.txt"%string
    = Some (list_ascii_of_string "hi") /\
  fs_open MemOS.impl MemOS.mount_point "S:/a.txt" LV_FS_MODE_WR Scenario.started
    = Ret (1, Scenario.truncated) /\
  MemOS.files (os Scenario.truncated) !! "/littlefs/a.txt"%string = Some [].
Proof.
  assert (Hrun : fs_open MemOS.impl MemOS.mount_point "S:/a.txt" LV_FS_MODE_WR
                   Scenario.started = Ret (1, Scenario.truncated))
    by (vm_compute; reflexivity).
  split; [vm_compute; reflexivity|]. split; [exact Hrun|].
  assert (Hfp : fs_open_filepath MemOS.mount_point "S:/a.txt"
                = Some "/littlefs/a.txt"%string) by reflexivity.
  destruct (fs_open_mode_from_write_bit MemOS.mount_point "S:/a.txt"
              "/littlefs/a.txt" LV_FS_MODE_WR Hfp) as (_ & _ & Hmem).
  apply (Hmem Scenario.started Scenario.truncated 1 Hrun).
  unfold NULL. lia.
Defined.

(** ** Directory listing *)

Lemma c_str_no_nul (s : string) :
  Forall (fun c => c <> NUL) (list_ascii_of_string (c_str s)).
Proof.
  induction s as [|c s IH]; [constructor|].
  cbn [c_str]. destruct (Ascii.eqb c NUL) eqn:E; [constructor|].
  cbn [list_ascii_of_string]. constructor; [|exact IH].
  apply Ascii.eqb_neq. exact E.
Qed.

(** The C string of a buffer ends at its first NUL. *)
Lemma buf_str_until_nul (chars rest : list ascii) :
  Forall (fun c => c <> NUL) chars ->
  buf_str (chars ++ NUL :: rest) = string_of_list_ascii chars.
Proof.
  unfold buf_str. induction 1 as [|c chars Hc _ IH]; [reflexivity|].
  cbn [app string_of_list_ascii c_str].
  apply Ascii.eqb_neq in Hc. rewrite Hc. f_equal. exact IH.
Qed.

Lemma terminated_at (chars rest : list ascii) :
  terminated (chars ++ NUL :: rest) = true.
Proof.
  unfold terminated. rewrite existsb_app. cbn [existsb].
  rewrite Ascii.eqb_refl. apply orb_true_iff. right. reflexivity.
Qed.

Lemma length_string_of_list_ascii (l : list ascii) :
  String.length (string_of_list_ascii l) = length l.
Proof. induction l as [|c l IH]; [reflexivity|]. cbn. now rewrite IH. Qed.

(** The two statements of [fs_dir_read] that fill the name buffer: on a
    buffer of [k + 1] cells they leave the first [k] characters of the entry
    name, at most, and a NUL right after them. *)
Lemma name_copy (dst : list ascii) (src : string) (k : nat) :
  length dst = S k ->
  exists (fn1 rest : list ascii),
    strncpy dst src (Z.of_nat k) = Some fn1 /\
    store_char fn1 (Z.of_nat k) NUL
      = Some (take k (list_ascii_of_string (c_str src)) ++ NUL :: rest) /\
    length (take k (list_ascii_of_string (c_str src)) ++ NUL :: rest) = S k.
Proof.
  intros Hlen.
  set (chars := take k (list_ascii_of_string (c_str src))).
  assert (Hchars : (length chars <= k)%nat).
  { unfold chars. rewrite length_take. lia. }
  assert (Hdrop : exists x, drop k dst = [x]).
  { assert (Hd : length (drop k dst) = 1%nat) by (rewrite length_drop; lia).
    destruct (drop k dst) as [|x [|y l]]; try discriminate. eauto. }
  destruct Hdrop as [x Hx].
  assert (Hcpy : strncpy dst src (Z.of_nat k)
                 = Some (chars ++ replicate (k - length chars) NUL ++ [x])).
  { unfold strncpy. rewrite Hlen.
    assert (E : (0 <=? Z.of_nat k) && (Z.of_nat k <=? Z.of_nat (S k)) = true).
    { apply andb_true_iff. split; [apply Z.leb_le | apply Z.leb_le]; lia. }
    rewrite E, Nat2Z.id. fold chars. rewrite Hx. reflexivity. }
  assert (Hin : forall l : list ascii,
             length l = S k ->
             store_char l (Z.of_nat k) NUL = Some (<[k := NUL]> l)).
  { intros l Hl. unfold store_char. rewrite Hl.
    assert (E : (0 <=? Z.of_nat k) && (Z.of_nat k <? Z.of_nat (S k)) = true).
    { apply andb_true_iff. split; [apply Z.leb_le | apply Z.ltb_lt]; lia. }
    rewrite E, Nat2Z.id. reflexivity. }
  destruct (k - length chars)%nat as [|m] eqn:Epad.
  - exists (chars ++ [x]), []. split; [exact Hcpy|]. split.
    + rewrite Hin by (rewrite length_app; cbn; lia).
      rewrite insert_app_r_alt by lia.
      replace (k - length chars)%nat with 0%nat by lia. reflexivity.
    + rewrite length_app. cbn. lia.
  - exists (chars ++ NUL :: replicate m NUL ++ [x]),
           (<[m := NUL]> (replicate m NUL ++ [x])).
    split; [exact Hcpy|]. split.
    + rewrite Hin
        by (rewrite length_app; cbn; rewrite length_app, length_replicate; cbn; lia).
      rewrite insert_app_r_alt by lia. rewrite Epad. reflexivity.
    + rewrite length_app. cbn.
      rewrite length_insert, length_app, length_replicate. cbn. lia.
Qed.

(** The name left in a non-empty buffer by [fn[0] = 0]. *)
Lemma store_nul_first (fn : list ascii) :
  fn <> [] ->
  exists rest : list ascii,
    store_char fn 0 NUL = Some (NUL :: rest) /\ length (NUL :: rest) = length fn.
Proof.
  intros Hfn. destruct fn as [|c rest]; [contradiction|].
  exists rest. split; reflexivity.
Qed.

(** C8: on a non-null handle, when [readdir] reports the end of the
    directory, [fs_dir_read] leaves the empty string in the name buffer and
    returns [LV_FS_RES_OK].  On the in-memory platform this is what the first
    [fs_dir_read] does after [fs_dir_open] on a directory without
    entries. *)
Theorem fs_dir_read_exhausted (fn : list ascii) (fn_len : Z) :
  fn <> [] ->
  (forall (W : Type) (C : libc W) (st : state W) (d : ptr) (w' : W),
      d <> NULL ->
      readdir C d (os st) = Ret (None, w') ->
      exists fn' : list ascii,
        fs_dir_read C d fn fn_len st = Ret ((LV_FS_RES_OK, fn'), set_os w' st) /\
        buf_str fn' = EmptyString /\
        length fn' = length fn) /\
  (forall (LV_FS_PATH path dirpath : string) (st st1 : state MemOS.world) (d : ptr),
      fs_dir_open_dirpath LV_FS_PATH path = Some dirpath ->
      MemOS.dirs (os st) !! dirpath = Some [] ->
      fs_dir_open MemOS.impl LV_FS_PATH path st = Ret (d, st1) ->
      d <> NULL ->
      exists fn' : list ascii,
        fs_dir_read MemOS.impl d fn fn_len st1 = Ret ((LV_FS_RES_OK, fn'), st1) /\
        buf_str fn' = EmptyString).
Proof.
  intros Hfn.
  assert (Hgen : forall (W : Type) (C : libc W) (st : state W) (d : ptr) (w' : W),
      d <> NULL ->
      readdir C d (os st) = Ret (None, w') ->
      exists fn' : list ascii,
        fs_dir_read C d fn fn_len st = Ret ((LV_FS_RES_OK, fn'), set_os w' st) /\
        buf_str fn' = EmptyString /\
        length fn' = length fn).
  { intros W C st d w' Hd Hread.
    destruct (store_nul_first fn Hfn) as (rest & Hstore & Hlen).
    exists (NUL :: rest). split; [|split; [reflexivity | exact Hlen]].
    unfold fs_dir_read. rewrite (not_null d Hd).
    rewrite (bind_sys _ _ _ _ _ Hread). cbv beta iota.
    rewrite Hstore, bind_access. reflexivity. }
  split; [exact Hgen|].
  intros LV_FS_PATH path dirpath st st1 d Hdp Hdir Hopen Hd.
  unfold fs_dir_open in Hopen. rewrite Hdp, bind_access in Hopen.
  unfold sys in Hopen. cbn [opendir MemOS.impl] in Hopen.
  unfold MemOS.m_opendir in Hopen.
  destruct (negb (MemOS.mounted (os st))).
  - injection Hopen as <- _. contradiction.
  - rewrite Hdir in Hopen. injection Hopen as <- <-.
    destruct (Hgen MemOS.world MemOS.impl
                (set_os (MemOS.bump (MemOS.set_dstreams
                   (<[MemOS.fresh (os st) := []]> (MemOS.dstreams (os st))) (os st))) st)
                (MemOS.fresh (os st))
                (MemOS.bump (MemOS.set_dstreams
                   (<[MemOS.fresh (os st) := []]> (MemOS.dstreams (os st))) (os st))))
      as (fn' & Hrun & Hstr & _).
    + exact Hd.
    + cbn [readdir MemOS.impl os set_os]. unfold MemOS.m_readdir. cbn.
      rewrite lookup_insert_eq. reflexivity.
    + exists fn'. split; [|exact Hstr]. rewrite Hrun. reflexivity.
Qed.

Lemma fs_dir_read_exhausted_witness :
  fs_dir_open MemOS.impl MemOS.mount_point "/img" Scenario.started
    = Ret (1, Scenario.listing_img) /\
  exists fn' : list ascii,
    fs_dir_read MemOS.impl 1 Scenario.buf4 4 Scenario.listing_img
      = Ret ((LV_FS_RES_OK, fn'), Scenario.listing_img) /\
    buf_str fn' = EmptyString.
Proof.
  assert (Hopen : fs_dir_open MemOS.impl MemOS.mount_point "/img" Scenario.started
                  = Ret (1, Scenario.listing_img)) by (vm_compute; reflexivity).
  split; [exact Hopen|].
  assert (Hbuf : Scenario.buf4 <> []) by discriminate.
  refine (proj2 (fs_dir_read_exhausted Scenario.buf4 4 Hbuf)
            MemOS.mount_point "/img" "/littlefs/img" Scenario.started
            Scenario.listing_img 1 _ _ Hopen _).
  - reflexivity.
  - vm_compute. reflexivity.
  - unfold NULL. lia.
Defined.

(** C10: on a non-null handle and a name buffer of [fn_len >= 1] cells,
    whatever [readdir] returns, [fs_dir_read] returns [LV_FS_RES_OK] and
    leaves in the buffer a NUL-terminated string of at most [fn_len - 1]
    characters: the empty string at the end of the directory, and otherwise
    the entry name cut to its first [fn_len - 1] characters. *)
Theorem fs_dir_read_name_fits {W : Type} (C : libc W) (st : state W) (d : ptr)
        (fn : list ascii) (fn_len : Z) (entry : option dirent) (w' : W) :
  d <> NULL ->
  1 <= fn_len < 2 ^ 32 ->
  Z.of_nat (length fn) = fn_len ->
  readdir C d (os st) = Ret (entry, w') ->
  exists fn' : list ascii,
    fs_dir_read C d fn fn_len st = Ret ((LV_FS_RES_OK, fn'), set_os w' st) /\
    length fn' = length fn /\
    terminated fn' = true /\
    Z.of_nat (String.length (buf_str fn')) <= fn_len - 1 /\
    buf_str fn' =
      match entry with
      | None => EmptyString
      | Some e =>
        string_of_list_ascii
          (take (Z.to_nat (fn_len - 1)) (list_ascii_of_string (c_str (d_name e))))
      end.
Proof.
  intros Hd Hlen Hfn Hread.
  unfold fs_dir_read. rewrite (not_null d Hd).
  rewrite (bind_sys _ _ _ _ _ Hread).
  destruct entry as [e|].
  - assert (Hk : length fn = S (Z.to_nat (fn_len - 1))) by lia.
    destruct (name_copy fn (d_name e) (Z.to_nat (fn_len - 1)) Hk)
      as (fn1 & rest & Hcpy & Hstore & Hsize).
    rewrite uint32_small by lia.
    rewrite Z2Nat.id in Hcpy, Hstore by lia.
    rewrite Hcpy, bind_access, Hstore, bind_access.
    eexists. split; [reflexivity|].
    assert (Hnonul : Forall (fun c => c <> NUL)
              (take (Z.to_nat (fn_len - 1)) (list_ascii_of_string (c_str (d_name e))))).
    { apply Forall_take, c_str_no_nul. }
    split; [lia|]. split; [apply terminated_at|].
    rewrite (buf_str_until_nul _ rest Hnonul). split; [|reflexivity].
    rewrite length_string_of_list_ascii, length_take. lia.
  - assert (Hne : fn <> []) by (intros ->; cbn in Hfn; lia).
    destruct (store_nul_first fn Hne) as (rest & Hstore & Hsize).
    rewrite Hstore, bind_access.
    eexists. split; [reflexivity|].
    split; [exact Hsize|]. split; [reflexivity|].
    split; [cbn; lia | reflexivity].
Qed.

Lemma fs_dir_read_name_fits_witness :
  exists fn' : list ascii,
    fs_dir_read MemOS.impl 1 Scenario.buf4 4 Scenario.listing_root
      = Ret ((LV_FS_RES_OK, fn'),
             set_os (os Scenario.first_entry) Scenario.listing_root) /\
    terminated fn' = true /\
    buf_str fn' = "a.t"%string.
Proof.
  destruct (fs_dir_read_name_fits MemOS.impl Scenario.listing_root 1 Scenario.buf4 4
              (Some {| d_name := "a.txt" |}) (os Scenario.first_entry))
    as (fn' & Hrun & _ & Hterm & _ & Hstr).
  - unfold NULL. lia.
  - lia.
  - reflexivity.
  - vm_compute. reflexivity.
  - exists fn'. split; [exact Hrun|]. split; [exact Hterm | exact Hstr].
Defined.

(** ** The scenarios of the specification, on the in-memory platform *)

(** Write ["hi"] to a new file, close it, open it for reading: the read
    returns the two bytes, a further read returns none, both with
    [LV_FS_RES_OK]. *)
Example scenario_write_then_read :
  Scenario.value
    (let* f := fs_open MemOS.impl MemOS.mount_point "S:/b.txt" LV_FS_MODE_WR in
     let* w := fs_write MemOS.impl f (list_ascii_of_string "hi") 2 (Some 0) in
     let* c := fs_close MemOS.impl f in
     let* g := fs_open MemOS.impl MemOS.mount_point "S:/b.txt" LV_FS_MODE_RD in
     let* r1 := fs_read MemOS.impl g Scenario.buf4 4 (Some 0) in
     let* r2 := fs_read MemOS.impl g Scenario.buf4 4 (Some 0) in
     ret (w, c, r1, r2))
    Scenario.started
  = Some ((LV_FS_RES_OK, Some 2), LV_FS_RES_OK,
          (LV_FS_RES_OK, list_ascii_of_string "hi..", Some 2),
          (LV_FS_RES_OK, Scenario.buf4, Some 0)).
Proof. vm_compute. reflexivity. Qed.

(** A seek to the end followed by a tell gives the length of the file. *)
Example scenario_seek_end_tell :
  Scenario.value
    (let* f := fs_open MemOS.impl MemOS.mount_point "S:/a.txt" LV_FS_MODE_RD in
     let* s := fs_seek MemOS.impl f 0 LV_FS_SEEK_END in
     let* t := fs_tell MemOS.impl f (Some 0) in
     ret (s, t))
    Scenario.started
  = Some (LV_FS_RES_OK, (LV_FS_RES_OK, Some 2)).
Proof. vm_compute. reflexivity. Qed.

(** The listing of an empty directory ends at the first read, when the
    directory is named without a drive designator ... *)
Example scenario_empty_directory :
  Scenario.value
    (let* d := fs_dir_open MemOS.impl MemOS.mount_point "/img" in
     let* r := fs_dir_read MemOS.impl d Scenario.buf4 4 in
     ret (negb (d =? NULL), fst r, buf_str (snd r)))
    Scenario.started
  = Some (true, LV_FS_RES_OK, EmptyString).
Proof. vm_compute. reflexivity. Qed.

(** ... and the directory is not found when it is named with one, although
    the file of the same spelling is. *)
Example scenario_directory_with_drive_letter :
  Scenario.value
    (let* d := fs_dir_open MemOS.impl MemOS.mount_point "S:/" in
     let* r := fs_dir_read MemOS.impl d Scenario.buf4 4 in
     let* f := fs_open MemOS.impl MemOS.mount_point "S:/a.txt" LV_FS_MODE_RD in
     ret (d, fst r, negb (f =? NULL)))
    Scenario.started
  = Some (NULL, LV_FS_RES_UNKNOWN, true).
Proof. vm_compute. reflexivity. Qed.

(** ** Properties beyond the claims *)

(** Case analysis along a run of a callback. *)
Ltac run_step H :=
  match type of H with
  | context [match ?c with _ => _ end] =>
    match c with
    | context [match _ with _ => _ end] => fail 1
    | _ => destruct c eqn:?
    end
  end.

Ltac run_in H :=
  unfold fs_close, fs_read, fs_write, fs_seek, fs_tell, fs_dir_read, fs_dir_close,
    fs_dir_open, bind, sys, peek, access, ret, undef, store_cell in H;
  repeat (run_step H; try discriminate H);
  try (injection H as ? ?; subst).

(** X1: the status of a callback is two-valued.  Whatever the handle, the
    arguments and the platform, a callback that returns a status returns
    [LV_FS_RES_OK] or [LV_FS_RES_UNKNOWN], never one of the eleven other
    codes of [lv_fs_res_t]. *)
Theorem status_ok_or_unknown {W : Type} (C : libc W) (st st' : state W) (h : ptr)
        (buf fn : list ascii) (n pos whence : Z) (slot : cell) (r : lv_fs_res_t) :
  (fs_close C h st = Ret (r, st') \/
   (exists b c, fs_read C h buf n slot st = Ret ((r, b, c), st')) \/
   (exists c, fs_write C h buf n slot st = Ret ((r, c), st')) \/
   fs_seek C h pos whence st = Ret (r, st') \/
   (exists c, fs_tell C h slot st = Ret ((r, c), st')) \/
   (exists b, fs_dir_read C h fn n st = Ret ((r, b), st')) \/
   fs_dir_close C h st = Ret (r, st')) ->
  r = LV_FS_RES_OK \/ r = LV_FS_RES_UNKNOWN.
Proof.
  intros [H|[(b & c & H)|[(c & H)|[H|[(c & H)|[(b & H)|H]]]]]].
  all: run_in H.
  all: try (left; congruence); try (right; congruence).
  all: try (destruct (_ =? _); auto).
Qed.

Lemma set_os_frame {W : Type} (w : W) (st : state W) :
  log (set_os w st) = log st /\ fs_drivers (set_os w st) = fs_drivers st.
Proof. split; reflexivity. Qed.

(** X2: the callbacks other than [fs_open] write no log line, and no
    callback changes LVGL's driver list. *)
Theorem callbacks_keep_log_and_drivers {W : Type} (C : libc W) (LV_FS_PATH : string)
        (st st' : state W) (h : ptr) (path : string)
        (buf fn : list ascii) (n pos whence : Z) (slot : cell) :
  ((exists r, fs_close C h st = Ret (r, st')) \/
   (exists r, fs_read C h buf n slot st = Ret (r, st')) \/
   (exists r, fs_write C h buf n slot st = Ret (r, st')) \/
   (exists r, fs_seek C h pos whence st = Ret (r, st')) \/
   (exists r, fs_tell C h slot st = Ret (r, st')) \/
   (exists r, fs_dir_open C LV_FS_PATH path st = Ret (r, st')) \/
   (exists r, fs_dir_read C h fn n st = Ret (r, st')) \/
   (exists r, fs_dir_close C h st = Ret (r, st'))) ->
  log st' = log st /\ fs_drivers st' = fs_drivers st.
Proof.
  intros [[r H]|[[r H]|[[r H]|[[r H]|[[r H]|[[r H]|[[r H]|[r H]]]]]]]].
  all: run_in H.
  all: try (split; reflexivity).
Qed.

(** X3: [fs_open] returns the pointer [fopen] returns, null included, and
    logs one information line with the translated path and the mode string;
    when the pointer is null it logs one error line more, with the path and
    the [errno] left by [fopen].  It does not touch the driver list. *)
Theorem fs_open_log {W : Type} (C : libc W) (LV_FS_PATH path fp : string)
        (mode : Z) (st : state W) (f : ptr) (w' : W) :
  fs_open_filepath LV_FS_PATH path = Some fp ->
  fopen C fp (fs_open_mode_str mode) (os st) = Ret (f, w') ->
  fs_open C LV_FS_PATH path mode st =
    Ret (f, {| os := w';
               log := log st
                      ++ [{| lvl := LOG_INFO; tag := TAG;
                             msg := Msg_open fp (fs_open_mode_str mode) |}]
                      ++ (if f =? NULL
                          then [{| lvl := LOG_ERROR; tag := TAG;
                                   msg := Msg_open_failed fp (errno C w') |}]
                          else []);
               fs_drivers := fs_drivers st |}).
Proof.
  intros Hfp Hopen. unfold fs_open. rewrite Hfp, bind_access. cbv zeta.
  unfold bind at 1. unfold ESP_LOGI at 1.
  unfold bind at 1. unfold sys at 1. cbn [os]. rewrite Hopen.
  destruct (f =? NULL); cbn; rewrite <- ?app_assoc; reflexivity.
Qed.

(** X4: on a non-null handle and a non-null position slot, [fs_tell]
    stores the position and returns [LV_FS_RES_OK] when [ftell] is not
    negative, and returns [LV_FS_RES_UNKNOWN] with the slot as it was when
    [ftell] is negative.  With a null slot it returns [LV_FS_RES_UNKNOWN]
    without calling [ftell]. *)
Theorem fs_tell_status {W : Type} (C : libc W) (st : state W) (f : ptr)
        (v pos : Z) (w' : W) :
  f <> NULL ->
  - 2 ^ 31 <= pos < 2 ^ 31 ->
  ftell C f (os st) = Ret (pos, w') ->
  fs_tell C f (Some v) st =
    Ret (if pos <? 0 then (LV_FS_RES_UNKNOWN, Some v) else (LV_FS_RES_OK, Some pos),
         set_os w' st) /\
  fs_tell C f None st = Ret ((LV_FS_RES_UNKNOWN, None), st).
Proof.
  intros Hf Hpos Htell. split.
  - unfold fs_tell. rewrite (not_null f Hf). cbn [orb negb].
    replace (bool_decide (is_Some (Some v))) with true
      by (symmetry; apply bool_decide_eq_true; eauto).
    cbn [negb]. rewrite (bind_sys _ _ _ _ _ Htell).
    destruct (pos <? 0) eqn:E; [reflexivity|].
    apply Z.ltb_ge in E. unfold store_cell. rewrite bind_access.
    rewrite uint32_small by lia. reflexivity.
  - unfold fs_tell. rewrite (not_null f Hf). reflexivity.
Qed.

(** ** Start-up, continued *)

Lemma fs_init_keeps_drivers {W : Type} (C : libc W) (LV_FS_PATH : string)
      (st st' : state W) (u : unit) :
  fs_init C LV_FS_PATH st = Ret (u, st') ->
  fs_drivers st' = fs_drivers st.
Proof.
  intros H. unfold fs_init, bind, sys, ret, ESP_LOGE, ESP_LOGI in H.
  repeat (run_step H; try discriminate H).
  all: injection H as _ <-; reflexivity.
Qed.

(** X5: when the mount succeeds, [fs_init] queries the partition
    information; it logs the sizes when that query succeeds and logs
    nothing when it fails.  Either way it returns normally. *)
Theorem fs_init_mounted {W : Type} (C : libc W) (LV_FS_PATH : string)
        (st : state W) (w1 w2 : W) (r' total used : Z) :
  esp_vfs_littlefs_register C
    {| base_path := LV_FS_PATH; partition_label := None;
       format_if_mount_failed := true; dont_mount := false |} (os st)
    = Ret (ESP_OK, w1) ->
  esp_littlefs_info C None 0 0 w1 = Ret ((r', total, used), w2) ->
  fs_init C LV_FS_PATH st =
    Ret (tt, {| os := w2;
                log := log st ++
                       (if r' =? ESP_OK
                        then [{| lvl := LOG_INFO; tag := TAG;
                                 msg := Msg_partition_size total used |}]
                        else []);
                fs_drivers := fs_drivers st |}).
Proof.
  intros Hreg Hinfo. unfold fs_init.
  rewrite (bind_sys _ _ _ _ _ Hreg). cbn [negb Z.eqb ESP_OK partition_label].
  unfold bind, sys. cbn [os set_os]. rewrite Hinfo.
  destruct (r' =? ESP_OK); cbn; rewrite ?app_nil_r; reflexivity.
Qed.

(** X6: whenever [lv_port_fs_init] returns, the driver is at the head of
    LVGL's list and the drivers registered before are kept behind it.  The
    routine is not idempotent: a second call registers the driver a second
    time. *)
Theorem lv_port_fs_init_registers {W : Type} (C : libc W) (LV_FS_PATH : string)
        (st st1 : state W) :
  lv_port_fs_init C LV_FS_PATH st = Ret (tt, st1) ->
  fs_drivers st1 = fs_drv :: fs_drivers st /\
  forall st2 : state W,
    lv_port_fs_init C LV_FS_PATH st1 = Ret (tt, st2) ->
    fs_drivers st2 = fs_drv :: fs_drv :: fs_drivers st.
Proof.
  assert (Hone : forall s s' : state W,
             lv_port_fs_init C LV_FS_PATH s = Ret (tt, s') ->
             fs_drivers s' = fs_drv :: fs_drivers s).
  { intros s s' H. unfold lv_port_fs_init, bind in H.
    destruct (fs_init C LV_FS_PATH s) as [[u s0]|] eqn:E; [|discriminate].
    apply fs_init_keeps_drivers in E.
    unfold lv_fs_drv_register in H. injection H as <-. cbn. now rewrite E. }
  intros H1. split; [exact (Hone _ _ H1)|].
  intros st2 H2. rewrite (Hone _ _ H2), (Hone _ _ H1). reflexivity.
Qed.

(** ** Path translation, continued *)

Lemma length_substring_0 (s : string) (n : nat) :
  (String.length (String.substring 0 n s) <= n)%nat.
Proof.
  revert n. induction s as [|c s IH]; intros [|n]; cbn; try lia.
  specialize (IH n). lia.
Qed.

Lemma substring_0_append (s t : string) (n : nat) :
  (String.length s <= n)%nat ->
  String.substring 0 n (s ++ t) = (s ++ String.substring 0 (n - String.length s) t)%string.
Proof.
  revert n. induction s as [|c s IH]; intros n Hn.
  - cbn. now rewrite Nat.sub_0_r.
  - destruct n as [|n]; cbn in Hn; [lia|].
    change (String.substring 0 (S n) (String c (s ++ t))
            = String c (s ++ String.substring 0 (S n - S (String.length s)) t)).
    cbn [String.substring]. f_equal. apply IH. lia.
Qed.

(** X7: the path handed to [fopen] or [opendir] never has more than 255
    characters, whatever the lengths of the mount point and of the path
    given: it fits the 256-byte local buffer with its terminator, longer
    texts being cut. *)
Theorem resolved_path_fits_buffer (LV_FS_PATH path fp : string) :
  fs_open_filepath LV_FS_PATH path = Some fp \/
  fs_dir_open_dirpath LV_FS_PATH path = Some fp ->
  (String.length fp <= 255)%nat.
Proof.
  intros [H|H].
  - unfold fs_open_filepath in H.
    destruct (char_at path 1) as [c1|]; [|discriminate].
    cbv zeta in H.
    destruct (char_at _ 0) as [c0|]; [|discriminate].
    destruct (Ascii.eqb c0 "/"); injection H as <-; apply length_substring_0.
  - unfold fs_dir_open_dirpath in H.
    destruct (char_at path 0) as [c0|]; [|discriminate].
    destruct (Ascii.eqb c0 "/"); injection H as <-; apply length_substring_0.
Qed.

(** X8: with a mount point of at most 255 characters, every path handed
    to [fopen] or [opendir] begins with the mount point. *)
Theorem resolved_path_starts_with_mount_point (LV_FS_PATH path fp : string) :
  (String.length LV_FS_PATH <= 255)%nat ->
  fs_open_filepath LV_FS_PATH path = Some fp \/
  fs_dir_open_dirpath LV_FS_PATH path = Some fp ->
  exists rest : string, fp = (LV_FS_PATH ++ rest)%string.
Proof.
  intros Hlen.
  assert (Hs : forall sep arg,
             exists rest, snprintf_s 256 (LV_FS_PATH ++ sep) arg = (LV_FS_PATH ++ rest)%string).
  { intros sep arg. unfold snprintf_s. rewrite append_append.
    rewrite substring_0_append by (cbn; lia). eauto. }
  assert (Hs0 : forall arg,
             exists rest, snprintf_s 256 LV_FS_PATH arg = (LV_FS_PATH ++ rest)%string).
  { intros arg. unfold snprintf_s.
    rewrite substring_0_append by (cbn; lia). eauto. }
  intros [H|H].
  - unfold fs_open_filepath in H.
    destruct (char_at path 1) as [c1|]; [|discriminate].
    cbv zeta in H.
    destruct (char_at _ 0) as [c0|]; [|discriminate].
    destruct (Ascii.eqb c0 "/"); injection H as <-; auto.
  - unfold fs_dir_open_dirpath in H.
    destruct (char_at path 0) as [c0|]; [|discriminate].
    destruct (Ascii.eqb c0 "/"); injection H as <-; auto.
Qed.

(** X9: [fs_open] and [fs_dir_open] translate a path the same way when
    its second character is not a colon. *)
Theorem translations_agree_without_drive_letter (LV_FS_PATH path : string) (c : ascii) :
  char_at path 1 = Some c ->
  c <> ":"%char ->
  fs_open_filepath LV_FS_PATH path = fs_dir_open_dirpath LV_FS_PATH path.
Proof.
  intros H1 Hc. unfold fs_open_filepath, fs_dir_open_dirpath. rewrite H1.
  apply Ascii.eqb_neq in Hc. rewrite Hc. reflexivity.
Qed.

(** X10: for a path that starts with a drive designator, any character
    followed by a colon, [fs_open] resolves what [fs_dir_open] resolves for
    the rest of the path.  The character before the colon is not looked at,
    the rest may be empty, and one designator only is removed. *)
Theorem fs_open_strips_then_translates_as_fs_dir_open (LV_FS_PATH p : string) (d : ascii) :
  fs_open_filepath LV_FS_PATH (String d (String ":" p)) = fs_dir_open_dirpath LV_FS_PATH p.
Proof.
  unfold fs_open_filepath.
  change (char_at (String d (String ":" p)) 1) with (Some ":"%char).
  cbv beta iota. change (Ascii.eqb ":" ":") with true. cbv iota zeta.
  rewrite advance_2. reflexivity.
Qed.

Lemma c_str_cons (c : ascii) (s : string) :
  c <> NUL -> c_str (String c s) = String c (c_str s).
Proof. intros H. cbn [c_str]. apply Ascii.eqb_neq in H. now rewrite H. Qed.

Lemma snprintf_s_slash (prefix p : string) :
  snprintf_s 256 prefix (String "/" p) = snprintf_s 256 (prefix ++ "/") p.
Proof.
  unfold snprintf_s. rewrite c_str_cons by discriminate.
  rewrite append_append. reflexivity.
Qed.

(** X11: a leading slash is optional.  [fs_dir_open] resolves ["/" ++ p]
    and [p] to the same path when [p] does not start with a slash, the empty
    [p] included; so does [fs_open] when moreover neither the first nor the
    second character of [p] is a colon. *)
Theorem leading_slash_optional (LV_FS_PATH p : string) :
  String.get 0 p <> Some "/"%char ->
  fs_dir_open_dirpath LV_FS_PATH (String "/" p) = fs_dir_open_dirpath LV_FS_PATH p /\
  (forall c0 c1 : ascii,
      String.get 0 p = Some c0 -> c0 <> ":"%char ->
      char_at p 1 = Some c1 -> c1 <> ":"%char ->
      fs_open_filepath LV_FS_PATH (String "/" p) = fs_open_filepath LV_FS_PATH p).
Proof.
  intros Hslash.
  assert (E : exists c, char_at p 0 = Some c /\ Ascii.eqb c "/" = false).
  { unfold char_at. destruct p as [|c p]; cbn.
    - exists NUL. split; reflexivity.
    - exists c. split; [reflexivity|]. apply Ascii.eqb_neq.
      intros ->. apply Hslash. reflexivity. }
  destruct E as (c & Hc & Hne).
  split.
  - unfold fs_dir_open_dirpath.
    change (char_at (String "/" p) 0) with (Some "/"%char).
    cbv beta iota. change (Ascii.eqb "/" "/") with true. cbv iota.
    rewrite Hc, Hne. f_equal. apply snprintf_s_slash.
  - intros c0 c1 H0 Hc0 H1 Hc1. unfold fs_open_filepath.
    assert (E1 : char_at (String "/" p) 1 = Some c0).
    { destruct p as [|a p]; [discriminate|]. cbn in H0. exact H0. }
    rewrite E1, H1. apply Ascii.eqb_neq in Hc0, Hc1. rewrite Hc0, Hc1.
    change (char_at (String "/" p) 0) with (Some "/"%char).
    cbv beta iota. change (Ascii.eqb "/" "/") with true. cbv iota.
    rewrite Hc, Hne. f_equal. apply snprintf_s_slash.
Qed.

(** ** The name buffer of [fs_dir_read] *)

Lemma replicate_snoc (n : nat) (x : ascii) :
  replicate n x ++ [x] = replicate (S n) x.
Proof. induction n as [|n IH]; [reflexivity|]. cbn. now rewrite IH. Qed.

Lemma name_copy_within (dst : list ascii) (src : string) (k : nat) :
  (S k <= length dst)%nat ->
  let chars := take k (list_ascii_of_string (c_str src)) in
  exists fn1 : list ascii,
    strncpy dst src (Z.of_nat k) = Some fn1 /\
    store_char fn1 (Z.of_nat k) NUL
      = Some (chars ++ replicate (S k - length chars) NUL ++ drop (S k) dst).
Proof.
  intros Hlen chars.
  assert (Hchars : (length chars <= k)%nat).
  { unfold chars. rewrite length_take. lia. }
  assert (Hdrop : exists x, drop k dst = x :: drop (S k) dst).
  { destruct (drop k dst) as [|x l] eqn:E.
    - apply (f_equal length) in E. rewrite length_drop in E. cbn in E. lia.
    - exists x. f_equal.
      replace (S k) with (k + 1)%nat by lia. rewrite <- drop_drop, E. reflexivity. }
  destruct Hdrop as [x Hx].
  exists (chars ++ replicate (k - length chars) NUL ++ x :: drop (S k) dst).
  split.
  - unfold strncpy.
    assert (E : (0 <=? Z.of_nat k) && (Z.of_nat k <=? Z.of_nat (length dst)) = true).
    { apply andb_true_iff. split; apply Z.leb_le; lia. }
    rewrite E, Nat2Z.id. fold chars. rewrite Hx. reflexivity.
  - unfold store_char.
    assert (Hsize : length (chars ++ replicate (k - length chars) NUL ++ x :: drop (S k) dst)
                    = length dst).
    { rewrite !length_app, length_replicate. cbn. rewrite length_drop. lia. }
    assert (E : (0 <=? Z.of_nat k) &&
                (Z.of_nat k <? Z.of_nat (length (chars ++ replicate (k - length chars) NUL
                                                    ++ x :: drop (S k) dst))) = true).
    { rewrite Hsize. apply andb_true_iff. split; [apply Z.leb_le | apply Z.ltb_lt]; lia. }
    rewrite E, Nat2Z.id. f_equal.
    rewrite insert_app_r_alt by lia.
    rewrite insert_app_r_alt by (rewrite length_replicate; lia).
    rewrite length_replicate.
    replace (k - length chars - (k - length chars))%nat with 0%nat by lia.
    cbn [insert list_insert].
    replace (S k - length chars)%nat with (S (k - length chars)) by lia.
    rewrite <- replicate_snoc, <- app_assoc. reflexivity.
Qed.

(** X13: the name buffer after [fs_dir_read] has read an entry, for a
    buffer of at least [fn_len >= 1] cells: the first [fn_len - 1]
    characters of the name, then NULs up to cell [fn_len - 1], then the
    cells from [fn_len] on as they were.  Nothing is written past
    [fn_len] cells, no byte of the old content is left between the name and
    cell [fn_len], and a name of at most [fn_len - 1] characters is
    reported whole. *)
Theorem fs_dir_read_buffer {W : Type} (C : libc W) (st : state W) (d : ptr)
        (fn : list ascii) (fn_len : Z) (e : dirent) (w' : W) :
  d <> NULL ->
  1 <= fn_len <= Z.of_nat (length fn) ->
  fn_len < 2 ^ 32 ->
  readdir C d (os st) = Ret (Some e, w') ->
  let name := list_ascii_of_string (c_str (d_name e)) in
  let chars := take (Z.to_nat (fn_len - 1)) name in
  fs_dir_read C d fn fn_len st =
    Ret ((LV_FS_RES_OK,
          chars ++ replicate (Z.to_nat fn_len - length chars) NUL
                ++ drop (Z.to_nat fn_len) fn),
         set_os w' st) /\
  (Z.of_nat (length name) <= fn_len - 1 -> chars = name).
Proof.
  intros Hd Hlen Hmax Hread name chars. split.
  - unfold fs_dir_read. rewrite (not_null d Hd).
    rewrite (bind_sys _ _ _ _ _ Hread). cbv beta iota.
    rewrite uint32_small by lia.
    assert (Hk : (S (Z.to_nat (fn_len - 1)) <= length fn)%nat) by lia.
    destruct (name_copy_within fn (d_name e) (Z.to_nat (fn_len - 1)) Hk)
      as (fn1 & Hcpy & Hstore).
    rewrite Z2Nat.id in Hcpy, Hstore by lia.
    rewrite Hcpy, bind_access, Hstore, bind_access.
    replace (S (Z.to_nat (fn_len - 1))) with (Z.to_nat fn_len) by lia.
    reflexivity.
  - intros Hfit. unfold chars. apply take_ge. lia.
Qed.

(** X14: [fs_dir_read] has no defined behaviour when an entry is read
    with [fn_len = 0], the count [fn_len - 1] of [strncpy] wrapping to
    [2^32 - 1], or with [fn_len] larger than the buffer. *)
Theorem fs_dir_read_overflow {W : Type} (C : libc W) (st : state W) (d : ptr)
        (fn : list ascii) (fn_len : Z) (e : dirent) (w' : W) :
  d <> NULL ->
  0 <= fn_len < 2 ^ 32 ->
  Z.of_nat (length fn) < 2 ^ 32 - 1 ->
  fn_len = 0 \/ Z.of_nat (length fn) < fn_len ->
  readdir C d (os st) = Ret (Some e, w') ->
  fs_dir_read C d fn fn_len st = Undef.
Proof.
  intros Hd Hrange Hbuf Hbad Hread.
  unfold fs_dir_read. rewrite (not_null d Hd).
  rewrite (bind_sys _ _ _ _ _ Hread). cbv beta iota.
  assert (Hn : uint32 (fn_len - 1) = 2 ^ 32 - 1 /\ fn_len = 0 \/
               uint32 (fn_len - 1) = fn_len - 1 /\ Z.of_nat (length fn) < fn_len).
  { destruct (Z.eq_dec fn_len 0) as [->|Hnz].
    - left. split; reflexivity.
    - right. split; [apply uint32_small; lia | lia]. }
  destruct Hn as [[-> _]|[-> Hlt]].
  - unfold strncpy.
    assert (E : (2 ^ 32 - 1 <=? Z.of_nat (length fn)) = false) by (apply Z.leb_gt; lia).
    rewrite E, andb_false_r. reflexivity.
  - unfold strncpy.
    destruct ((0 <=? fn_len - 1) && (fn_len - 1 <=? Z.of_nat (length fn))) eqn:E;
      [|reflexivity].
    rewrite bind_access. unfold store_char.
    rewrite !length_app, length_replicate, length_drop, length_take.
    assert (E2 : (fn_len - 1 <?
                  Z.of_nat (Z.to_nat (fn_len - 1)
                    `min` length (list_ascii_of_string (c_str (d_name e)))
                    + (Z.to_nat (fn_len - 1)
                       - Z.to_nat (fn_len - 1)
                         `min` length (list_ascii_of_string (c_str (d_name e)))
                       + (length fn - Z.to_nat (fn_len - 1))))) = false).
    { apply Z.ltb_ge. lia. }
    rewrite E2, andb_false_r. reflexivity.
Qed.

(** ** Streams of the in-memory platform *)

Lemma fresh_not_null (w : MemOS.world) : MemOS.fresh w <> NULL.
Proof. unfold MemOS.fresh, NULL. lia. Qed.

Lemma bind_run {S A B : Type} (c : M S A) (k : A -> M S B) (s s' : S) (a : A) :
  c s = Ret (a, s') -> bind c k s = k a s'.
Proof. intros H. unfold bind. rewrite H. reflexivity. Qed.

(** What [fs_open] returned is what [m_fopen] returned. *)
Lemma fs_open_on_platform (LV_FS_PATH path fp : string) (mode : Z)
      (st st1 : state MemOS.world) (f : ptr) :
  fs_open_filepath LV_FS_PATH path = Some fp ->
  fs_open MemOS.impl LV_FS_PATH path mode st = Ret (f, st1) ->
  MemOS.m_fopen fp (fs_open_mode_str mode) (os st) = Ret (f, os st1).
Proof.
  intros Hfp Hrun.
  destruct (m_fopen_returns fp (fs_open_mode_str mode) (os st)) as (f0 & w0 & Hopen).
  destruct (fs_open_after_fopen MemOS.impl LV_FS_PATH path fp mode st f0 w0 Hfp Hopen)
    as (st0 & Hrun0 & Hos).
  rewrite Hrun in Hrun0. injection Hrun0 as <- <-.
  rewrite Hos. exact Hopen.
Qed.

(** The state a successful ["wb"] leaves. *)
Lemma m_fopen_wb_opened (fp : string) (w w1 : MemOS.world) (f : ptr) :
  MemOS.m_fopen fp "wb" w = Ret (f, w1) ->
  f <> NULL ->
  MemOS.streams w1 !! f = Some (new_stream fp false true) /\
  MemOS.files w1 !! fp = Some [] /\
  MemOS.disk_free w1 = MemOS.disk_free w /\
  MemOS.mounted w1 = true.
Proof.
  unfold MemOS.m_fopen, MemOS.open_stream.
  destruct (MemOS.mounted w) eqn:Hm; cbn [negb].
  - cbn. destruct (MemOS.is_dir w fp).
    + intros H Hf. injection H as <- _. contradiction.
    + destruct (MemOS.creation_site w fp) as [[key name]|].
      * intros H _. injection H as <- <-. cbn.
        rewrite !lookup_insert_eq. repeat split; try reflexivity. exact Hm.
      * intros H Hf. injection H as <- _. contradiction.
  - intros H Hf. injection H as <- _. contradiction.
Qed.

(** The state a successful ["rb"] leaves. *)
Lemma m_fopen_rb_mounted (fp : string) (w : MemOS.world) (content : list ascii) :
  MemOS.mounted w = true ->
  MemOS.files w !! fp = Some content ->
  exists w1 : MemOS.world,
    MemOS.m_fopen fp "rb" w = Ret (MemOS.fresh w, w1) /\
    MemOS.streams w1 = <[MemOS.fresh w := new_stream fp true false]> (MemOS.streams w) /\
    MemOS.files w1 = MemOS.files w.
Proof.
  intros Hm Hf. unfold MemOS.m_fopen, MemOS.open_stream. rewrite Hm, Hf. cbn.
  eexists. split; [reflexivity|]. split; reflexivity.
Qed.

(** A read of at least one byte on a stream not opened for reading. *)
Lemma m_fread_refused (buf : list ascii) (nmemb : Z) (f : ptr)
      (w : MemOS.world) (F : MemOS.FILE) :
  MemOS.streams w !! f = Some F ->
  MemOS.f_readable F = false ->
  0 < nmemb ->
  exists w1 : MemOS.world,
    MemOS.m_fread buf 1 nmemb f w = Ret ((0, buf), w1) /\
    MemOS.m_feof f w1 = (if MemOS.f_eof F then 1 else 0) /\
    MemOS.m_ferror f w1 = 1.
Proof.
  intros Hs Hr Hn. unfold MemOS.m_fread. rewrite Hs, Hr.
  assert (E : (Z.to_nat (1 * nmemb) =? 0)%nat = false) by (apply Nat.eqb_neq; lia).
  rewrite E. cbn [negb].
  eexists. split; [reflexivity|].
  unfold MemOS.m_feof, MemOS.m_ferror. cbn. rewrite lookup_insert_eq. cbn.
  split; reflexivity.
Qed.

(** A transfer of no byte. *)
Lemma m_fread_nothing (buf : list ascii) (f : ptr) (w : MemOS.world) (F : MemOS.FILE) :
  MemOS.streams w !! f = Some F ->
  MemOS.m_fread buf 1 0 f w = Ret ((0, buf), w).
Proof. intros Hs. unfold MemOS.m_fread. rewrite Hs. reflexivity. Qed.

(** X15: there is no read-write mode.  On the in-memory platform, when an
    open whose mode has the write bit set, with or without the read bit,
    returns a handle, the file is empty and the stream is open for writing
    only: every [fs_read] of at least one byte on it returns
    [LV_FS_RES_UNKNOWN] with a count of [0] and the buffer untouched, and an
    [fs_read] of no byte returns [LV_FS_RES_OK]. *)
Theorem read_write_mode_is_write_only (LV_FS_PATH path fp : string) (mode : Z)
        (st st1 : state MemOS.world) (f : ptr) :
  fs_open_filepath LV_FS_PATH path = Some fp ->
  Z.testbit mode 0 = true ->
  fs_open MemOS.impl LV_FS_PATH path mode st = Ret (f, st1) ->
  f <> NULL ->
  MemOS.files (os st1) !! fp = Some [] /\
  (forall (buf : list ascii) (btr v : Z),
      0 < btr ->
      exists st2 : state MemOS.world,
        fs_read MemOS.impl f buf btr (Some v) st1
          = Ret ((LV_FS_RES_UNKNOWN, buf, Some 0), st2)) /\
  (forall (buf : list ascii) (v : Z),
      fs_read MemOS.impl f buf 0 (Some v) st1
        = Ret ((LV_FS_RES_OK, buf, Some 0), set_os (os st1) st1)).
Proof.
  intros Hfp Hbit Hrun Hf.
  assert (Hopen := fs_open_on_platform LV_FS_PATH path fp mode st st1 f Hfp Hrun).
  rewrite fs_open_mode_str_bit, Hbit in Hopen.
  destruct (m_fopen_wb_opened fp (os st) (os st1) f Hopen Hf) as (Hs & Hfile & _ & _).
  split; [exact Hfile|]. split.
  - intros buf btr v Hbtr.
    destruct (m_fread_refused buf btr f (os st1) _ Hs eq_refl Hbtr)
      as (w2 & Hread & Heof & Herr).
    exists (set_os w2 st1).
    rewrite (fs_read_after_fread MemOS.impl st1 f buf buf btr v 0 w2 Hf Hread).
    cbn [feof ferror MemOS.impl]. rewrite Heof, Herr. reflexivity.
  - intros buf v.
    rewrite (fs_read_after_fread MemOS.impl st1 f buf buf 0 v 0 (os st1) Hf
               (m_fread_nothing buf f (os st1) _ Hs)).
    cbn [feof ferror MemOS.impl]. unfold MemOS.m_feof, MemOS.m_ferror.
    rewrite Hs. reflexivity.
Qed.

(** A write that fits the free space, on a stream just opened. *)
Lemma m_fwrite_first (data : list ascii) (fp : string) (f : ptr) (w : MemOS.world) :
  MemOS.streams w !! f = Some (new_stream fp false true) ->
  (length data <= MemOS.disk_free w)%nat ->
  exists w1 : MemOS.world,
    MemOS.m_fwrite data 1 (Z.of_nat (length data)) f w
      = Ret (Z.of_nat (length data), w1) /\
    MemOS.streams w1 !! f
      = Some (MemOS.set_data data
                (MemOS.set_flags false false (length data) (new_stream fp false true))) /\
    MemOS.files w1 = MemOS.files w /\
    MemOS.disk_free w1 = (MemOS.disk_free w - length data)%nat /\
    MemOS.mounted w1 = MemOS.mounted w.
Proof.
  intros Hs Hfree. unfold MemOS.m_fwrite. rewrite Hs.
  rewrite Z.mul_1_l, Nat2Z.id.
  destruct data as [|c data].
  - cbn. exists w. rewrite Hs, Nat.sub_0_r. repeat split; reflexivity.
  - assert (E0 : (length (c :: data) =? 0)%nat = false) by reflexivity.
    rewrite E0. cbn [negb MemOS.f_writable new_stream].
    assert (E1 : (length (c :: data) <? length (c :: data))%nat = false)
      by (apply Nat.ltb_ge; lia).
    rewrite E1. cbv zeta.
    rewrite Nat.min_l by exact Hfree.
    rewrite take_ge by lia. rewrite E1.
    unfold MemOS.items. cbn [Z.eqb]. rewrite Z.div_1_r.
    eexists. split; [reflexivity|]. cbn.
    rewrite lookup_insert_eq, app_nil_r. repeat split; reflexivity.
Qed.

(** Closing a stream opened for writing, with free space left: what the
    stream holds becomes the content of the file. *)
Lemma m_fclose_commits (f : ptr) (w : MemOS.world) (F : MemOS.FILE) :
  MemOS.streams w !! f = Some F ->
  MemOS.f_writable F = true ->
  MemOS.disk_free w <> 0%nat ->
  exists w1 : MemOS.world,
    MemOS.m_fclose f w = Ret (0, w1) /\
    MemOS.files w1 !! MemOS.f_path F = Some (MemOS.f_data F) /\
    MemOS.mounted w1 = MemOS.mounted w.
Proof.
  intros Hs Hw Hfree. unfold MemOS.m_fclose. rewrite Hs, Hw.
  apply Nat.eqb_neq in Hfree. rewrite Hfree. cbv zeta.
  eexists. split; [reflexivity|]. cbn. rewrite lookup_insert_eq.
  split; reflexivity.
Qed.

(** Closing any open stream: the pointer designates no stream afterwards,
    whether the commit succeeds or not. *)
Lemma m_fclose_open (f : ptr) (w : MemOS.world) (F : MemOS.FILE) :
  MemOS.streams w !! f = Some F ->
  exists (r : Z) (w1 : MemOS.world),
    MemOS.m_fclose f w = Ret (r, w1) /\
    MemOS.streams w1 !! f = None.
Proof.
  intros Hs. unfold MemOS.m_fclose. rewrite Hs. cbv zeta.
  destruct (MemOS.f_writable F); [destruct (MemOS.disk_free w =? 0)%nat|];
    eexists _, _; (split; [reflexivity|]); cbn; apply lookup_delete_eq.
Qed.

Lemma set_flags_same (F : MemOS.FILE) :
  MemOS.set_flags (MemOS.f_eof F) (MemOS.f_err F) (MemOS.f_pos F) F = F.
Proof. destruct F; reflexivity. Qed.

(** A read on a stream opened for reading only. *)
Lemma m_fread_open (buf : list ascii) (btr : Z) (g : ptr) (w : MemOS.world)
      (F : MemOS.FILE) (content : list ascii) :
  MemOS.streams w !! g = Some F ->
  MemOS.f_readable F = true ->
  MemOS.f_writable F = false ->
  MemOS.files w !! MemOS.f_path F = Some content ->
  let data := take (Z.to_nat btr) (drop (MemOS.f_pos F) content) in
  (length data <= length buf)%nat ->
  exists w1 : MemOS.world,
    MemOS.m_fread buf 1 btr g w
      = Ret ((Z.of_nat (length data), data ++ drop (length data) buf), w1) /\
    MemOS.streams w1
      = <[g := MemOS.set_flags (MemOS.f_eof F || (length data <? Z.to_nat btr)%nat)
                               (MemOS.f_err F) (MemOS.f_pos F + length data) F]>
          (MemOS.streams w) /\
    MemOS.files w1 = MemOS.files w.
Proof.
  intros Hs Hr Hw Hf data Hfit. unfold MemOS.m_fread. rewrite Hs.
  rewrite Z.mul_1_l.
  destruct (Z.to_nat btr =? 0)%nat eqn:E0.
  - apply Nat.eqb_eq in E0. unfold data. rewrite E0. cbn [take length app drop].
    exists w. split; [reflexivity|]. split; [|reflexivity].
    cbn [Nat.ltb Nat.leb]. rewrite orb_false_r, Nat.add_0_r, set_flags_same.
    symmetry. apply insert_id. exact Hs.
  - rewrite Hr. cbn [negb].
    unfold MemOS.contents. rewrite Hw, Hf. cbn [from_option]. unfold id.
    cbv zeta. fold data.
    assert (E : (length buf <? length data)%nat = false) by (apply Nat.ltb_ge; lia).
    rewrite E. unfold MemOS.items. cbn [Z.eqb]. rewrite Z.div_1_r.
    eexists. split; [reflexivity|]. split; reflexivity.
Qed.

(** X16: what is written is read back.  On the in-memory platform, once a
    path has been opened for writing and free space is left beyond the
    data: write the data, close, open for reading a path that translates to
    the same file, read into a buffer large enough.  Every status is
    [LV_FS_RES_OK]; the write reports the full count, the first read
    returns the data and its length, a further read returns no byte. *)
Theorem write_close_open_read (LV_FS_PATH path_w path_r fp : string)
        (st st1 : state MemOS.world) (f : ptr) (data buf : list ascii) (v : Z) :
  fs_open_filepath LV_FS_PATH path_w = Some fp ->
  fs_open_filepath LV_FS_PATH path_r = Some fp ->
  fs_open MemOS.impl LV_FS_PATH path_w LV_FS_MODE_WR st = Ret (f, st1) ->
  f <> NULL ->
  (length data < MemOS.disk_free (os st1))%nat ->
  (length data <= length buf)%nat ->
  Z.of_nat (length buf) < 2 ^ 32 ->
  exists st' : state MemOS.world,
    (let* w := fs_write MemOS.impl f data (Z.of_nat (length data)) (Some v) in
     let* c := fs_close MemOS.impl f in
     let* g := fs_open MemOS.impl LV_FS_PATH path_r LV_FS_MODE_RD in
     let* r1 := fs_read MemOS.impl g buf (Z.of_nat (length buf)) (Some v) in
     let* r2 := fs_read MemOS.impl g (snd (fst r1)) (Z.of_nat (length buf)) (Some v) in
     ret (w, c, r1, r2)) st1
    = Ret (((LV_FS_RES_OK, Some (Z.of_nat (length data))),
            LV_FS_RES_OK,
            (LV_FS_RES_OK, data ++ drop (length data) buf, Some (Z.of_nat (length data))),
            (LV_FS_RES_OK, data ++ drop (length data) buf, Some 0)), st').
Proof.
  intros Hw Hr Hrun1 Hf Hfree Hfit Hbuf.
  set (n := Z.of_nat (length data)).
  (* the stream opened for writing *)
  assert (Hopen := fs_open_on_platform LV_FS_PATH path_w fp LV_FS_MODE_WR st st1 f Hw Hrun1).
  change (fs_open_mode_str LV_FS_MODE_WR) with "wb"%string in Hopen.
  destruct (m_fopen_wb_opened fp (os st) (os st1) f Hopen Hf) as (Hst1 & _ & _ & Hm1).
  (* write *)
  destruct (m_fwrite_first data fp f (os st1) Hst1)
    as (w2 & Hwrite & Hs2 & Hf2 & Hd2 & Hm2); [lia|].
  assert (Hrun2 := fs_write_after_fwrite MemOS.impl st1 f data n v n w2 Hf Hwrite).
  rewrite Z.ltb_irrefl in Hrun2. cbn [andb] in Hrun2.
  rewrite uint32_small in Hrun2 by (unfold n; lia).
  rewrite (bind_run _ _ _ _ _ Hrun2).
  (* close: the data reaches the file *)
  destruct (m_fclose_commits f w2 _ Hs2 eq_refl) as (w3 & Hclose & Hfile & Hm3); [lia|].
  cbn [MemOS.f_path MemOS.f_data MemOS.set_data MemOS.set_flags new_stream] in Hfile.
  assert (Hrun3 : fs_close MemOS.impl f (set_os w2 st1)
                  = Ret (LV_FS_RES_OK, set_os w3 (set_os w2 st1))).
  { unfold fs_close. rewrite (not_null f Hf).
    unfold bind, sys. cbn [os set_os fclose MemOS.impl].
    rewrite Hclose. reflexivity. }
  rewrite (bind_run _ _ _ _ _ Hrun3).
  (* open for reading *)
  assert (Hm3' : MemOS.mounted w3 = true).
  { rewrite Hm3, Hm2. exact Hm1. }
  destruct (m_fopen_rb_mounted fp w3 data Hm3' Hfile) as (w4 & Hopen4 & Hs4 & Hf4).
  destruct (fs_open_after_fopen MemOS.impl LV_FS_PATH path_r fp LV_FS_MODE_RD
              (set_os w3 (set_os w2 st1)) _ _ Hr Hopen4)
    as (st4 & Hrun4 & Hos4).
  set (g := MemOS.fresh w3) in *.
  assert (Hg : g <> NULL) by apply fresh_not_null.
  rewrite (bind_run _ _ _ _ _ Hrun4).
  (* first read *)
  assert (Hst4 : MemOS.streams (os st4) !! g = Some (new_stream fp true false)).
  { rewrite Hos4, Hs4. apply lookup_insert_eq. }
  assert (Hfile4 : MemOS.files (os st4) !! fp = Some data).
  { rewrite Hos4, Hf4. exact Hfile. }
  assert (Hall : take (Z.to_nat (Z.of_nat (length buf))) (drop 0 data) = data).
  { rewrite Nat2Z.id. cbn [drop]. apply take_ge. lia. }
  destruct (m_fread_open buf (Z.of_nat (length buf)) g (os st4) _ data
              Hst4 eq_refl eq_refl Hfile4)
    as (w5 & Hread5 & Hs5 & Hf5).
  { cbn [MemOS.f_pos new_stream]. rewrite Hall. exact Hfit. }
  cbn [MemOS.f_pos MemOS.f_eof MemOS.f_err new_stream] in Hread5, Hs5.
  rewrite Hall in Hread5, Hs5.
  assert (Hrun5 := fs_read_after_fread MemOS.impl st4 g buf _ _ v _ w5 Hg Hread5).
  assert (Herr5 : ferror MemOS.impl g w5 = 0).
  { cbn [ferror MemOS.impl]. unfold MemOS.m_ferror. rewrite Hs5, lookup_insert_eq.
    reflexivity. }
  rewrite Herr5 in Hrun5. cbn [Z.eqb negb] in Hrun5. rewrite andb_false_r in Hrun5.
  rewrite uint32_small in Hrun5 by lia.
  rewrite (bind_run _ _ _ _ _ Hrun5). cbn [fst snd].
  (* second read *)
  set (buf' := data ++ drop (length data) buf) in *.
  assert (Hst5 : MemOS.streams (os (set_os w5 st4)) !! g
                 = Some (MemOS.set_flags (false || (length data <? length buf)%nat) false
                           (0 + length data) (new_stream fp true false))).
  { cbn [os set_os]. rewrite Hs5, Nat2Z.id. apply lookup_insert_eq. }
  assert (Hfile5 : MemOS.files (os (set_os w5 st4)) !! fp = Some data).
  { cbn [os set_os]. rewrite Hf5. exact Hfile4. }
  assert (Hnone : take (Z.to_nat (Z.of_nat (length buf))) (drop (0 + length data) data) = []).
  { rewrite drop_ge by lia. apply take_nil. }
  destruct (m_fread_open buf' (Z.of_nat (length buf)) g (os (set_os w5 st4)) _ data
              Hst5 eq_refl eq_refl Hfile5)
    as (w6 & Hread6 & Hs6 & _).
  { cbn [MemOS.f_pos MemOS.set_flags]. rewrite Hnone. cbn. lia. }
  cbn [MemOS.f_pos MemOS.f_eof MemOS.f_err MemOS.set_flags] in Hread6, Hs6.
  rewrite Hnone in Hread6, Hs6. cbn [length app drop] in Hread6.
  assert (Hrun6 := fs_read_after_fread MemOS.impl (set_os w5 st4) g buf' _ _ v _ w6 Hg Hread6).
  assert (Herr6 : ferror MemOS.impl g w6 = 0).
  { cbn [ferror MemOS.impl]. unfold MemOS.m_ferror. rewrite Hs6, lookup_insert_eq.
    reflexivity. }
  rewrite Herr6 in Hrun6. cbn [Z.eqb negb] in Hrun6. rewrite andb_false_r in Hrun6.
  change (uint32 (Z.of_nat 0)) with 0 in Hrun6. change (Z.of_nat 0) with 0 in Hrun6.
  rewrite (bind_run _ _ _ _ _ Hrun6).
  eexists. reflexivity.
Qed.



Lemma to_long_large (p : Z) : 2 ^ 31 <= p < 2 ^ 32 -> to_long p = p - 2 ^ 32.
Proof.
  intros H. unfold to_long. rewrite Z.mod_small by lia.
  assert (E : (p <? 2 ^ 31) = false) by (apply Z.ltb_ge; lia).
  rewrite E. reflexivity.
Qed.




(** X18: the position of [fs_seek] is converted to the 32-bit [long] of
    [fseek]: for [2^31 <= pos < 2^32] the offset that reaches [fseek] is
    the negative [pos - 2^32].  On the in-memory platform an absolute seek
    to such a position fails with [LV_FS_RES_UNKNOWN] and leaves the
    stream where it was. *)
Theorem fs_seek_large_offset {W : Type} (C : libc W) (st : state W) (f : ptr)
        (pos whence r : Z) (w' : W) :
  f <> NULL ->
  2 ^ 31 <= pos < 2 ^ 32 ->
  fseek C f (pos - 2 ^ 32) (fs_seek_origin whence) (os st) = Ret (r, w') ->
  fs_seek C f pos whence st
    = Ret (if r =? 0 then LV_FS_RES_OK else LV_FS_RES_UNKNOWN, set_os w' st) /\
  (forall (m : state MemOS.world) (F : MemOS.FILE),
      MemOS.streams (os m) !! f = Some F ->
      fs_seek MemOS.impl f pos LV_FS_SEEK_SET m
        = Ret (LV_FS_RES_UNKNOWN, set_os (MemOS.set_errno MemOS.EINVAL (os m)) m)).
Proof.
  intros Hf Hpos Hseek. split.
  - unfold fs_seek. rewrite (not_null f Hf). cbv zeta.
    rewrite to_long_large by exact Hpos.
    rewrite (bind_sys _ _ _ _ _ Hseek). reflexivity.
  - intros m F Hs. unfold fs_seek. rewrite (not_null f Hf). cbv zeta.
    rewrite to_long_large by exact Hpos.
    unfold bind, sys. cbn [fseek MemOS.impl]. unfold MemOS.m_fseek. rewrite Hs.
    change (fs_seek_origin LV_FS_SEEK_SET =? SEEK_SET) with true. cbv iota zeta.
    assert (E : (0 + (pos - 2 ^ 32) <? 0) = true) by (apply Z.ltb_lt; lia).
    rewrite E. reflexivity.
Qed.

(** X19: on the in-memory platform, [fs_close] on an open stream returns
    [LV_FS_RES_OK], whether or not [fclose] could commit what was written;
    after it, a second [fs_close] and every read, write, seek or tell on the
    same handle reach the C library with a stale pointer and have no defined
    result. *)
Theorem use_after_close_undefined (st : state MemOS.world) (f : ptr) (F : MemOS.FILE) :
  f <> NULL ->
  MemOS.streams (os st) !! f = Some F ->
  exists st1 : state MemOS.world,
    fs_close MemOS.impl f st = Ret (LV_FS_RES_OK, st1) /\
    fs_close MemOS.impl f st1 = Undef /\
    (forall (buf : list ascii) (n : Z) (slot : cell),
        fs_read MemOS.impl f buf n slot st1 = Undef /\
        fs_write MemOS.impl f buf n slot st1 = Undef) /\
    (forall pos whence : Z, fs_seek MemOS.impl f pos whence st1 = Undef) /\
    (forall v : Z, fs_tell MemOS.impl f (Some v) st1 = Undef).
Proof.
  intros Hf Hs.
  destruct (m_fclose_open f (os st) F Hs) as (r & w1 & Hclose & Hs1).
  exists (set_os w1 st).
  assert (Hgone : MemOS.streams (os (set_os w1 st)) !! f = None) by exact Hs1.
  split.
  { unfold fs_close. rewrite (not_null f Hf).
    unfold bind, sys. cbn [fclose MemOS.impl]. rewrite Hclose. reflexivity. }
  split.
  { unfold fs_close. rewrite (not_null f Hf).
    unfold bind, sys. cbn [fclose MemOS.impl]. unfold MemOS.m_fclose.
    rewrite Hgone. reflexivity. }
  split; [|split].
  - intros buf n slot. split.
    + unfold fs_read. rewrite (not_null f Hf).
      unfold bind, sys. cbn [fread MemOS.impl]. unfold MemOS.m_fread.
      rewrite Hgone. reflexivity.
    + unfold fs_write. rewrite (not_null f Hf).
      unfold bind, sys. cbn [fwrite MemOS.impl]. unfold MemOS.m_fwrite.
      rewrite Hgone. reflexivity.
  - intros pos whence. unfold fs_seek. rewrite (not_null f Hf).
    unfold bind, sys. cbn [fseek MemOS.impl]. unfold MemOS.m_fseek.
    rewrite Hgone. reflexivity.
  - intros v. unfold fs_tell. rewrite (not_null f Hf). cbn [orb].
    replace (bool_decide (is_Some (Some v))) with true
      by (symmetry; apply bool_decide_eq_true; eauto).
    cbn [negb]. unfold bind, sys. cbn [ftell MemOS.impl]. unfold MemOS.m_ftell.
    rewrite Hgone. reflexivity.
Qed.


(** ** Instances on the in-memory platform *)

Lemma status_ok_or_unknown_witness :
  LV_FS_RES_OK = LV_FS_RES_OK \/ LV_FS_RES_OK = LV_FS_RES_UNKNOWN.
Proof.
  apply (status_ok_or_unknown MemOS.impl Scenario.reading Scenario.closed 1
           [] [] 0 0 0 None LV_FS_RES_OK).
  left. vm_compute. reflexivity.
Defined.

Lemma callbacks_keep_log_and_drivers_witness :
  log Scenario.read_once = log Scenario.reading /\
  fs_drivers Scenario.read_once = fs_drivers Scenario.reading.
Proof.
  apply (callbacks_keep_log_and_drivers MemOS.impl MemOS.mount_point
           Scenario.reading Scenario.read_once 1 "" Scenario.buf4 [] 4 0 0 (Some 99)).
  right. left. eexists. vm_compute. reflexivity.
Defined.

Lemma fs_open_log_witness :
  fs_open MemOS.impl MemOS.mount_point "S:/nothing" LV_FS_MODE_RD Scenario.started
  = Ret (NULL,
         {| os := MemOS.set_errno MemOS.ENOENT MemOS.disk;
            log := [{| lvl := LOG_INFO; tag := TAG;
                       msg := Msg_open "/littlefs/nothing" "rb" |};
                    {| lvl := LOG_ERROR; tag := TAG;
                       msg := Msg_open_failed "/littlefs/nothing" MemOS.ENOENT |}];
            fs_drivers := [] |}).
Proof.
  apply (fs_open_log MemOS.impl MemOS.mount_point "S:/nothing" "/littlefs/nothing"
           LV_FS_MODE_RD Scenario.started NULL (MemOS.set_errno MemOS.ENOENT MemOS.disk)).
  - reflexivity.
  - vm_compute. reflexivity.
Defined.

Lemma fs_tell_status_witness :
  fs_tell MemOS.impl 1 (Some 7) Scenario.read_once
  = Ret ((LV_FS_RES_OK, Some 2), set_os (os Scenario.read_once) Scenario.read_once).
Proof.
  refine (proj1 (fs_tell_status MemOS.impl Scenario.read_once 1 7 2
                   (os Scenario.read_once) _ _ _)).
  - unfold NULL. lia.
  - lia.
  - vm_compute. reflexivity.
Defined.

Lemma fs_init_mounted_witness :
  fs_init MemOS.impl MemOS.mount_point Scenario.started
  = Ret (tt, {| os := MemOS.disk;
                log := [{| lvl := LOG_INFO; tag := TAG;
                           msg := Msg_partition_size 4096 96 |}];
                fs_drivers := [] |}).
Proof.
  apply (fs_init_mounted MemOS.impl MemOS.mount_point Scenario.started
           MemOS.disk MemOS.disk ESP_OK 4096 96).
  - reflexivity.
  - reflexivity.
Defined.

Lemma lv_port_fs_init_registers_witness :
  fs_drivers Scenario.initialised = [fs_drv].
Proof.
  refine (proj1 (lv_port_fs_init_registers MemOS.impl MemOS.mount_point
                   Scenario.started Scenario.initialised _)).
  vm_compute. reflexivity.
Defined.

Lemma resolved_path_fits_buffer_witness :
  (String.length "/littlefs/a.txt" <= 255)%nat.
Proof.
  apply (resolved_path_fits_buffer MemOS.mount_point "S:/a.txt" "/littlefs/a.txt").
  left. reflexivity.
Defined.

Lemma resolved_path_starts_with_mount_point_witness :
  exists rest : string, "/littlefs/img"%string = (MemOS.mount_point ++ rest)%string.
Proof.
  apply (resolved_path_starts_with_mount_point MemOS.mount_point "img" "/littlefs/img").
  - cbn. lia.
  - right. reflexivity.
Defined.

Lemma translations_agree_without_drive_letter_witness :
  fs_open_filepath MemOS.mount_point "/img" = fs_dir_open_dirpath MemOS.mount_point "/img".
Proof.
  apply (translations_agree_without_drive_letter MemOS.mount_point "/img" "i").
  - reflexivity.
  - discriminate.
Defined.

Lemma leading_slash_optional_witness :
  fs_dir_open_dirpath MemOS.mount_point "/img" = fs_dir_open_dirpath MemOS.mount_point "img".
Proof.
  refine (proj1 (leading_slash_optional MemOS.mount_point "img" _)).
  discriminate.
Defined.

Lemma fs_open_filepath_drive_letter_witness :
  fs_open_filepath MemOS.mount_point "S:/a.txt" = fs_open_filepath MemOS.mount_point "/a.txt".
Proof.
  apply (fs_open_filepath_drive_letter MemOS.mount_point "S" "/a.txt").
  - discriminate.
  - discriminate.
Defined.

Lemma fs_dir_read_buffer_witness :
  fs_dir_read MemOS.impl 1 (list_ascii_of_string "....!!") 4 Scenario.listing_root
  = Ret ((LV_FS_RES_OK, ["a"; "."; "t"; NUL; "!"; "!"]%char),
         set_os (os Scenario.first_entry) Scenario.listing_root).
Proof.
  refine (proj1 (fs_dir_read_buffer MemOS.impl Scenario.listing_root 1
                   (list_ascii_of_string "....!!") 4 {| d_name := "a.txt" |}
                   (os Scenario.first_entry) _ _ _ _)).
  - unfold NULL. lia.
  - cbn. lia.
  - lia.
  - vm_compute. reflexivity.
Defined.

Lemma fs_dir_read_overflow_witness :
  fs_dir_read MemOS.impl 1 Scenario.buf4 0 Scenario.listing_root = Undef.
Proof.
  apply (fs_dir_read_overflow MemOS.impl Scenario.listing_root 1 Scenario.buf4 0
           {| d_name := "a.txt" |} (os Scenario.first_entry)).
  - unfold NULL. lia.
  - lia.
  - cbn. lia.
  - left. reflexivity.
  - vm_compute. reflexivity.
Defined.

Lemma read_write_mode_is_write_only_witness :
  MemOS.files (os Scenario.opened_rw) !! "/littlefs/a.txt"%string = Some [] /\
  (exists st2 : state MemOS.world,
      fs_read MemOS.impl 1 Scenario.buf4 4 (Some 99) Scenario.opened_rw
        = Ret ((LV_FS_RES_UNKNOWN, Scenario.buf4, Some 0), st2)) /\
  fs_read MemOS.impl 1 Scenario.buf4 0 (Some 99) Scenario.opened_rw
    = Ret ((LV_FS_RES_OK, Scenario.buf4, Some 0),
           set_os (os Scenario.opened_rw) Scenario.opened_rw).
Proof.
  destruct (read_write_mode_is_write_only MemOS.mount_point "S:/a.txt" "/littlefs/a.txt"
              (Z.lor LV_FS_MODE_RD LV_FS_MODE_WR) Scenario.started Scenario.opened_rw 1)
    as (Hfile & Hread & Hzero).
  - reflexivity.
  - reflexivity.
  - vm_compute. reflexivity.
  - unfold NULL. lia.
  - split; [exact Hfile|]. split.
    + apply (Hread Scenario.buf4 4 99). lia.
    + apply (Hzero Scenario.buf4 99).
Defined.

Lemma write_close_open_read_witness :
  exists st' : state MemOS.world,
    (let* w := fs_write MemOS.impl 1 (list_ascii_of_string "hi") 2 (Some 0) in
     let* c := fs_close MemOS.impl 1 in
     let* g := fs_open MemOS.impl MemOS.mount_point "b.txt" LV_FS_MODE_RD in
     let* r1 := fs_read MemOS.impl g Scenario.buf4 4 (Some 0) in
     let* r2 := fs_read MemOS.impl g (snd (fst r1)) 4 (Some 0) in
     ret (w, c, r1, r2)) Scenario.created
    = Ret (((LV_FS_RES_OK, Some 2), LV_FS_RES_OK,
            (LV_FS_RES_OK, list_ascii_of_string "hi..", Some 2),
            (LV_FS_RES_OK, list_ascii_of_string "hi..", Some 0)), st').
Proof.
  apply (write_close_open_read MemOS.mount_point "S:/b.txt" "b.txt" "/littlefs/b.txt"
           Scenario.started Scenario.created 1 (list_ascii_of_string "hi") Scenario.buf4 0).
  - reflexivity.
  - reflexivity.
  - vm_compute. reflexivity.
  - unfold NULL. lia.
  - vm_compute. lia.
  - cbn. lia.
  - cbn. lia.
Defined.



Lemma fs_seek_large_offset_witness :
  fs_seek MemOS.impl 1 4294967295 LV_FS_SEEK_CUR Scenario.read_once
  = Ret (LV_FS_RES_OK, set_os (os Scenario.stepped_back) Scenario.read_once) /\
  ftell MemOS.impl 1 (os Scenario.stepped_back) = Ret (1, os Scenario.stepped_back).
Proof.
  split.
  - refine (proj1 (fs_seek_large_offset MemOS.impl Scenario.read_once 1 4294967295
                     LV_FS_SEEK_CUR 0 (os Scenario.stepped_back) _ _ _)).
    + unfold NULL. lia.
    + lia.
    + vm_compute. reflexivity.
  - vm_compute. reflexivity.
Defined.

Lemma use_after_close_undefined_witness :
  exists st1 : state MemOS.world,
    fs_close MemOS.impl 1 Scenario.reading = Ret (LV_FS_RES_OK, st1) /\
    fs_close MemOS.impl 1 st1 = Undef.
Proof.
  destruct (use_after_close_undefined Scenario.reading 1
              (new_stream "/littlefs/a.txt" true false))
    as (st1 & Hclose & Hagain & _).
  - unfold NULL. lia.
  - vm_compute. reflexivity.
  - exists st1. split; [exact Hclose | exact Hagain].
Defined.
